(** * The browser-challenge solver (solver.js): model and properties

    The solver drives a remote single-page application through thirty
    gated steps.  This development embeds
    - [decrypt] and the extraction of the session codes (solver.js 18-25, 64-66),
    - the code lookup [codes[step] || codes[29]] (line 111),
    - the polling loop with its budget of 120 iterations (lines 68-204),
    - the finalisation of the run statistics and the artefacts written at
      the end of the run (lines 206-230),
    - what the launchers solve.sh and solve.ps1 print and return once
      the solver has exited.

    The browser driver, the clock, [Buffer.from(_, 'base64')] and
    [JSON.parse] belong to the platform: they are the operations of the
    class [Host], and every statement holds for an arbitrary host. *)

From Stdlib Require Import ZArith NArith QArith Bool List Ascii String Lia.
From Stdlib Require Import Floats.PrimFloat Strings.Byte Sorting.Sorted.
From Stdlib Require DecimalString.
Import ListNotations.

Set Warnings "-register-all".

Local Open Scope string_scope.
Local Open Scope N_scope.

(* ================================================================== *)
(** ** JavaScript values *)

(** The values that [JSON.parse] can produce, and [undefined].  Strings
    are sequences of code units; the model keeps the units below 256,
    which is exact for the output of [decrypt] (a 'binary' string).
    Numbers are IEEE doubles.  An object lists its members in document
    order. *)
Inductive JSValue : Type :=
| JUndefined
| JNull
| JBool (b : bool)
| JNumber (x : float)
| JString (s : string)
| JArray (elems : list JSValue)
| JObject (members : list (string * JSValue)).

(** Exceptions raised by the language and its built-ins, and the
    rejection of a driver call. *)
Inductive Exn : Type := TypeError | SyntaxError | DriverError.

Inductive Result (A : Type) : Type :=
| Ok (a : A)
| Throw (e : Exn).
Arguments Ok {A} a.
Arguments Throw {A} e.

Definition bind {A B} (r : Result A) (k : A -> Result B) : Result B :=
  match r with
  | Ok a => k a
  | Throw e => Throw e
  end.

Notation "x <- r ;; k" := (bind r (fun x => k))
  (at level 61, r at next level, right associativity).

(** [ToBoolean]: the falsy values are [undefined], [null], [false],
    [+0], [-0], [NaN] and the empty string. *)
Definition truthy (v : JSValue) : bool :=
  match v with
  | JUndefined | JNull => false
  | JBool b => b
  | JNumber x => negb (PrimFloat.eqb x PrimFloat.zero) && PrimFloat.eqb x x
  | JString s => negb (String.eqb s "")
  | JArray _ | JObject _ => true
  end.

(** [a || b] *)
Definition js_or (a b : JSValue) : JSValue := if truthy a then a else b.

(** Decimal rendering of an index, as [ToString] does for a property key. *)
Definition ToString (n : N) : string :=
  DecimalString.NilZero.string_of_uint (N.to_uint n).

(** Own property of an object built by [JSON.parse]: a later duplicate
    member overrides an earlier one. *)
Fixpoint get_member (key : string) (members : list (string * JSValue)) : JSValue :=
  match members with
  | [] => JUndefined
  | (k, v) :: rest =>
      match get_member key rest with
      | JUndefined => if String.eqb k key then v else JUndefined
      | later => later
      end
  end.

(** [s[i]] on a string: the one-unit string at [i], or [undefined]. *)
Definition string_at (s : string) (i : N) : JSValue :=
  match String.get (N.to_nat i) s with
  | Some c => JString (String c EmptyString)
  | None => JUndefined
  end.

(** [v[i]] for a non-negative integer [i] and a value [v] that is
    neither [undefined] nor [null]. *)
Definition js_index (v : JSValue) (i : N) : JSValue :=
  match v with
  | JArray elems => nth (N.to_nat i) elems JUndefined
  | JString s => string_at s i
  | JObject members => get_member (ToString i) members
  | _ => JUndefined
  end.

(** [v.codes] *)
Definition get_codes (v : JSValue) : Result JSValue :=
  match v with
  | JUndefined | JNull => Throw TypeError
  | JObject members => Ok (get_member "codes" members)
  | _ => Ok JUndefined
  end.

(** Whether an object has an own property of that name. *)
Definition has_member (key : string) (members : list (string * JSValue)) : bool :=
  existsb (fun member => String.eqb (fst member) key) members.

(** Whether the conversion of a value to a string, as a template
    literal does it, throws a [TypeError].  An object built by
    [JSON.parse] is converted through its [toString]: a member of that
    name is not callable, and the inherited [valueOf] gives back the
    object, so the conversion throws exactly when the object has such a
    member.  An array joins the conversions of its elements, with
    nothing for [undefined] and [null].  Every other value converts. *)
Fixpoint ToString_throws (v : JSValue) : bool :=
  match v with
  | JObject members => has_member "toString" members
  | JArray elems =>
      (fix any (l : list JSValue) : bool :=
         match l with
         | [] => false
         | x :: rest => ToString_throws x || any rest
         end) elems
  | _ => false
  end.

(** Line 66 reads [codes.length] and converts it to a string inside a
    template literal; only the exceptions matter.  The length of an
    array or of a string is a number, that of a number or of a boolean
    is [undefined], that of an object is its member of that name. *)
Definition check_length (v : JSValue) : Result unit :=
  match v with
  | JUndefined | JNull => Throw TypeError
  | JObject members =>
      if ToString_throws (get_member "length" members)
      then Throw TypeError else Ok tt
  | _ => Ok tt
  end.

(* ================================================================== *)
(** ** Strings: the three tests the solver makes on a location *)

(** [hay.includes(needle)] *)
Fixpoint includes (needle hay : string) : bool :=
  String.prefix needle hay ||
  match hay with
  | EmptyString => false
  | String _ rest => includes needle rest
  end.

(** [\d] without the unicode flag: the ten ASCII digits. *)
Definition is_digit (c : ascii) : bool :=
  (48 <=? N_of_ascii c) && (N_of_ascii c <=? 57).

(** The longest run of digits at the head of [s] (the greedy [\d+]). *)
Fixpoint take_digits (s : string) : string :=
  match s with
  | String c rest => if is_digit c then String c (take_digits rest) else EmptyString
  | EmptyString => EmptyString
  end.

Fixpoint skip (n : nat) (s : string) : string :=
  match n, s with
  | S n', String _ rest => skip n' rest
  | _, _ => s
  end.

(** The capture of [/step(\d+)/] at the head of [u], if it matches there. *)
Definition step_here (u : string) : option string :=
  if String.prefix "step" u then
    match take_digits (skip 4 u) with
    | EmptyString => None
    | digits => Some digits
    end
  else None.

(** [u.match(/step(\d+)/)]: group 1 of the leftmost match, [None] for
    [null]. *)
Fixpoint match_step (u : string) : option string :=
  match step_here u with
  | Some digits => Some digits
  | None =>
      match u with
      | EmptyString => None
      | String _ rest => match_step rest
      end
  end.

Fixpoint parse_digits (acc : N) (s : string) : N :=
  match s with
  | String c rest =>
      if is_digit c then parse_digits (10 * acc + (N_of_ascii c - 48)) rest else acc
  | EmptyString => acc
  end.

(** [parseInt] on the capture of [\d+]: its decimal value.  (A double
    is exact up to 2^53; step numbers of sixteen digits and more are
    outside the model.) *)
Definition parseInt (digits : string) : N := parse_digits 0 digits.

(** The step shown by a location: [parseInt(url.match(/step(\d+)/)[1])]. *)
Definition step_of (url : string) : option N :=
  option_map parseInt (match_step url).

(* ================================================================== *)
(** ** decrypt (solver.js 16-25) *)

Definition BASE_URL : string := "https://serene-frangipane-7fd25b.netlify.app/".
Definition XOR_KEY : string := "WO_2024_CHALLENGE".

(** [s.charCodeAt(i)] for [i] inside [s]. *)
Definition charCodeAt (s : string) (i : nat) : N :=
  match String.get i s with
  | Some c => N_of_ascii c
  | None => 0
  end.

Definition fromCharCode (n : N) : ascii := ascii_of_N n.

(** The loop of [decrypt], from index [i] on, over the code units of
    [decoded] that are still to be read. *)
Fixpoint decrypt_from (i : nat) (decoded : string) : string :=
  match decoded with
  | EmptyString => EmptyString
  | String c rest =>
      String
        (fromCharCode
           (N.lxor (N_of_ascii c)
                   (charCodeAt XOR_KEY (Nat.modulo i (String.length XOR_KEY)))))
        (decrypt_from (S i) rest)
  end.

(* ================================================================== *)
(** ** The platform *)

(** What the solver consumes and does not define.  [T] is the state of
    the world outside the program: browser, page, target site, clock.
    The driver calls on the way into the stepped flow and inside the
    loop are taken to resolve, but for the one rejection the source
    handles, that of [page.waitForURL] inside the loop, which is the
    boolean it returns.  The two calls that frame the writing of the
    summary, [page.screenshot] and [browser.close], return a boolean as
    well: [true] when they resolve, [false] when they reject. *)
Class Host (T : Type) : Type := {
  (** [Buffer.from(s, 'base64')]: lenient, never throws on a string *)
  Buffer_from_base64 : string -> list byte;
  (** [JSON.parse(s)]: [None] stands for a [SyntaxError] *)
  JSON_parse : string -> option JSValue;
  (** [Date.now()], in milliseconds *)
  Date_now : T -> Z;
  (** [chromium.launch], [browser.newPage], [page.on('dialog', _)] *)
  chromium_launch : T -> T;
  (** [page.goto(url, _)] *)
  page_goto : string -> T -> T;
  (** [page.click('button:has-text("START")', _)] *)
  page_click_START : T -> T;
  (** the wait of line 61 for a location of the stepped flow *)
  page_waitForURL_step : T -> T;
  (** [page.evaluate(() => sessionStorage.getItem('wo_session'))]:
      [None] stands for [null] *)
  sessionStorage_getItem : T -> option string;
  (** [page.url()] *)
  page_url : T -> string;
  (** [page.waitForTimeout(ms)] *)
  page_waitForTimeout : Z -> T -> T;
  (** the evaluation of lines 90-94: [history.pushState] to [/finish]
      and a synthetic [popstate] *)
  evaluate_pushState : T -> T;
  (** the evaluation of lines 115-145: dismissal sweep for a step *)
  evaluate_dismiss : N -> T -> T;
  (** the evaluation of lines 150-159: the code typed into the input *)
  evaluate_enterCode : JSValue -> T -> T;
  (** the evaluation of lines 162-166: the click on submit *)
  evaluate_submit : T -> T;
  (** [page.waitForURL(predicate, { timeout })]: [true] when it
      resolves, [false] when it rejects *)
  page_waitForURL : (string -> bool) -> Z -> T -> bool * T;
  (** [page.screenshot(_)] *)
  page_screenshot : T -> bool * T;
  (** [browser.close()] *)
  browser_close : T -> bool * T
}.

(* ================================================================== *)
(** ** Run statistics *)

Record AttemptRecord : Type := {
  step : N;
  code : JSValue;
  durationMs : Z;
  method : string
}.

Record Metrics : Type := {
  tokenUsage : N;
  tokenCost : N;
  apiCalls : N;
  note : string
}.

(** [runStats].  The two instants are kept as milliseconds rather than
    as ISO strings.  [totalDurationSeconds] is the exact quotient; the
    source rounds it to two decimals through [toFixed] and [parseFloat],
    which keeps a non-negative value non-negative. *)
Record RunStats : Type := {
  startTime : Z;
  endTime : option Z;
  totalDurationSeconds : Q;
  stepsCompleted : N;
  totalSteps : N;
  success : bool;
  stepDetails : list AttemptRecord;
  metrics : Metrics
}.

Definition initial_runStats (now : Z) : RunStats :=
  {| startTime := now;
     endTime := None;
     totalDurationSeconds := 0;
     stepsCompleted := 0;
     totalSteps := 30;
     success := false;
     stepDetails := [];
     metrics := {| tokenUsage := 0; tokenCost := 0; apiCalls := 0;
                   note := "No LLM API used - pure algorithmic solution" |} |}.

(** [runStats.stepDetails.push(r)] *)
Definition push (r : AttemptRecord) (rs : RunStats) : RunStats :=
  {| startTime := startTime rs;
     endTime := endTime rs;
     totalDurationSeconds := totalDurationSeconds rs;
     stepsCompleted := stepsCompleted rs;
     totalSteps := totalSteps rs;
     success := success rs;
     stepDetails := stepDetails rs ++ [r];
     metrics := metrics rs |}.

(** The variables the loop updates. *)
Record Vars : Type := {
  lastStep : N;
  runStats : RunStats
}.

(** How an iteration ends: [break], on to the next iteration
    ([continue] and the end of the body alike), or an exception that
    nothing catches. *)
Inductive Flow : Type := Break | Next | Throws (e : Exn).

(** What the run leaves on disk. *)
Record Files : Type := {
  final_screenshot : bool;
  run_stats_json : option RunStats
}.

Inductive Settled : Type := Fulfilled | Rejected (e : Exn).

(* ================================================================== *)
(** ** The program *)

Section Solver.

Context {T : Type} {host : Host T}.

(** *** Session codes (lines 18-25 and 64-66) *)

(** [decrypt(encoded)]; [Buffer.from(null, 'base64')] throws. *)
Definition decrypt (encoded : option string) : Result string :=
  match encoded with
  | None => Throw TypeError
  | Some e => Ok (decrypt_from 0 (string_of_list_byte (Buffer_from_base64 e)))
  end.

Definition parse (text : string) : Result JSValue :=
  match JSON_parse text with
  | Some v => Ok v
  | None => Throw SyntaxError
  end.

(** Lines 65-66: [JSON.parse(decrypt(sessionData)).codes], then the
    read of [codes.length]. *)
Definition extract (sessionData : option string) : Result JSValue :=
  text <- decrypt sessionData ;;
  doc <- parse text ;;
  codes <- get_codes doc ;;
  _ <- check_length codes ;;
  Ok codes.

(** Line 111: [codes[step] || codes[29]]. *)
Definition codeFor (codes : JSValue) (step : N) : JSValue :=
  js_or (js_index codes step) (js_index codes 29).

(** *** One iteration (lines 71-203) *)

(** The predicate handed to [page.waitForURL] at lines 171-174. *)
Definition advanced_past (step : N) (u : string) : bool :=
  includes "/finish" u ||
  match match_step u with
  | Some m1 => step <? parseInt m1
  | None => false
  end.

Definition completed (step : N) (r : AttemptRecord) (v : Vars) : Vars :=
  {| lastStep := step; runStats := push r (runStats v) |}.

(** Lines 111-203: the ordinary path of a step.  Line 112 prints the
    code inside a template literal, which converts it to a string. *)
Definition submit_code (codes : JSValue) (step : N) (stepStartTime : Z)
    (v : Vars) (t : T) : Flow * Vars * T :=
  let code := codeFor codes step in
  if ToString_throws code then (Throws TypeError, v, t) else
  let t1 := evaluate_dismiss step t in
  let t2 := page_waitForTimeout 50 t1 in
  let t3 := evaluate_enterCode code t2 in
  let t4 := evaluate_submit t3 in
  let record (t' : T) :=
    {| step := step; code := code;
       durationMs := Date_now t' - stepStartTime;
       method := "code_submission" |} in
  match page_waitForURL (advanced_past step) 3500 t4 with
  | (true, t5) => (Next, completed step (record t5) v, t5)
  | (false, t5) =>
      let u := page_url t5 in
      if includes "/finish" u then
        (Break, {| lastStep := 30; runStats := runStats v |}, t5)
      else
        match match_step u with
        | Some m1 =>
            if step <? parseInt m1
            then (Next, completed step (record t5) v, t5)
            else (Next, v, t5)
        | None => (Next, v, t5)
        end
  end.

(** Lines 71-203. *)
Definition loop_body (codes : JSValue) (v : Vars) (t : T) : Flow * Vars * T :=
  let url := page_url t in
  if includes "/finish" url then
    (Break, {| lastStep := 30; runStats := runStats v |}, t)
  else
    match match_step url with
    | None => (Next, v, page_waitForTimeout 100 t)
    | Some stepMatch1 =>
        let step := parseInt stepMatch1 in
        if step <=? lastStep v then (Next, v, page_waitForTimeout 50 t)
        else
          let stepStartTime := Date_now t in
          if step =? 30 then
            let t1 := evaluate_pushState t in
            let t2 := page_waitForTimeout 500 t1 in
            if includes "/finish" (page_url t2) then
              (Break,
               completed 30
                 {| step := 30; code := JString "N/A (router bypass)";
                    durationMs := Date_now t2 - stepStartTime;
                    method := "history.pushState" |} v,
               t2)
            else submit_code codes step stepStartTime v t2
          else submit_code codes step stepStartTime v t
    end.

(** *** The loop (line 70) *)

(** The state in which the loop is left: by [break], by its guard or
    by an exception, with the value of [attempt] at that point. *)
Record LoopEnd : Type := {
  exit_by : Flow;
  attempt_at_exit : nat;
  vars : Vars;
  page : T
}.

(** [for (let attempt = 0; attempt < 120; attempt++) body].  [fuel]
    bounds the unfolding; [None] is a loop that needs more of it. *)
Fixpoint for_loop (fuel : nat) (attempt : nat) (codes : JSValue)
    (v : Vars) (t : T) : option LoopEnd :=
  match fuel with
  | O => None
  | S fuel' =>
      if (attempt <? 120)%nat then
        match loop_body codes v t with
        | (Break, v', t') =>
            Some {| exit_by := Break; attempt_at_exit := attempt;
                    vars := v'; page := t' |}
        | (Next, v', t') => for_loop fuel' (S attempt) codes v' t'
        | (Throws exn, v', t') =>
            Some {| exit_by := Throws exn; attempt_at_exit := attempt;
                    vars := v'; page := t' |}
        end
      else
        Some {| exit_by := Next; attempt_at_exit := attempt;
                vars := v; page := t |}
  end.

(** *** Finalisation and output (lines 206-230) *)

(** Lines 207-211. *)
Definition finalize (start : Z) (v : Vars) (t : T) : RunStats :=
  let totalDuration := Qmake (Date_now t - start) 1000 in
  let rs := runStats v in
  {| startTime := startTime rs;
     endTime := Some (Date_now t);
     totalDurationSeconds := totalDuration;
     stepsCompleted := lastStep v;
     totalSteps := totalSteps rs;
     success := lastStep v =? 30;
     stepDetails := stepDetails rs;
     metrics := metrics rs |}.

(** How the asynchronous main function settles, what it has written,
    and the world it leaves. *)
Record Outcome : Type := {
  settled : Settled;
  files : Files;
  world : T
}.

(** Lines 51-66: into the stepped flow, then the session codes. *)
Definition enter (t0 : T) : T :=
  page_waitForURL_step (page_click_START (page_goto BASE_URL (chromium_launch t0))).

(** Lines 68-230, once the codes are known.  An exception of the loop
    rejects the main function before anything is written.  Otherwise
    the screenshot is awaited (223), then the summary is written (226),
    then the browser is closed (230): a rejected screenshot leaves no
    file, a rejected close leaves both. *)
Definition solve (start : Z) (rs : RunStats) (codes : JSValue) (t : T)
    : option Outcome :=
  match for_loop 121 0 codes {| lastStep := 0; runStats := rs |} t with
  | None => None
  | Some e =>
      match exit_by e with
      | Throws exn =>
          Some {| settled := Rejected exn;
                  files := {| final_screenshot := false;
                              run_stats_json := None |};
                  world := page e |}
      | _ =>
          let stats := finalize start (vars e) (page e) in
          match page_screenshot (page e) with
          | (false, t1) =>
              Some {| settled := Rejected DriverError;
                      files := {| final_screenshot := false;
                                  run_stats_json := None |};
                      world := t1 |}
          | (true, t1) =>
              let written := {| final_screenshot := true;
                                run_stats_json := Some stats |} in
              match browser_close t1 with
              | (true, t2) =>
                  Some {| settled := Fulfilled; files := written; world := t2 |}
              | (false, t2) =>
                  Some {| settled := Rejected DriverError; files := written;
                          world := t2 |}
              end
          end
      end
  end.

(** The asynchronous main function (lines 27-231).  Nothing catches an
    exception of lines 64-66: the function rejects there, before any
    file is written.  The write of the summary itself is taken to
    succeed. *)
Definition main (t0 : T) : option Outcome :=
  let rs := initial_runStats (Date_now t0) in
  let start := Date_now t0 in
  let t1 := enter t0 in
  match extract (sessionStorage_getItem t1) with
  | Throw e =>
      Some {| settled := Rejected e;
              files := {| final_screenshot := false; run_stats_json := None |};
              world := t1 |}
  | Ok codes => solve start rs codes t1
  end.

(** The exit status of the process: the source never sets one, so it is
    0 when the main function fulfils and 1 when its rejection is left
    unhandled. *)
Definition exit_status (o : Outcome) : Z :=
  match settled o with
  | Fulfilled => 0%Z
  | Rejected _ => 1%Z
  end.

End Solver.

(* ================================================================== *)
(** ** A simulated target *)

(** A host to run the solver against: a target that shows one step at
    a time, moves to the next one on a submission while the step is
    below [sim_limit] (after ignoring the first [sim_lag] submissions),
    and, when [sim_bypass] is set, follows the history mutation to the
    finish page.  Its clock advances with every wait. *)
Module Sim.

Inductive Location : Type := AtStep (n : N) | AtFinish.

Record State : Type := {
  sim_loc : Location;
  sim_limit : N;
  sim_lag : nat;
  sim_bypass : bool;
  sim_clock : Z;
  sim_session : option string
}.

Definition url (s : State) : string :=
  match sim_loc s with
  | AtStep n => BASE_URL ++ "step" ++ ToString n
  | AtFinish => BASE_URL ++ "finish"
  end.

Definition tick (ms : Z) (s : State) : State :=
  {| sim_loc := sim_loc s; sim_limit := sim_limit s; sim_lag := sim_lag s;
     sim_bypass := sim_bypass s; sim_clock := (sim_clock s + ms)%Z;
     sim_session := sim_session s |}.

Definition move (l : Location) (s : State) : State :=
  {| sim_loc := l; sim_limit := sim_limit s; sim_lag := sim_lag s;
     sim_bypass := sim_bypass s; sim_clock := sim_clock s;
     sim_session := sim_session s |}.

Definition pushState (s : State) : State :=
  if sim_bypass s then move AtFinish s else s.

(** The effect of a submission on the location. *)
Definition submitted (s : State) : State :=
  match sim_lag s with
  | S lag =>
      {| sim_loc := sim_loc s; sim_limit := sim_limit s; sim_lag := lag;
         sim_bypass := sim_bypass s; sim_clock := sim_clock s;
         sim_session := sim_session s |}
  | O =>
      match sim_loc s with
      | AtStep n => if n <? sim_limit s then move (AtStep (n + 1)) s else s
      | AtFinish => s
      end
  end.

(** The wait for a location that satisfies [p]: it resolves shortly
    when the submission has led there, and times out otherwise. *)
Definition waitForURL (p : string -> bool) (timeout : Z) (s : State)
    : bool * State :=
  let s' := submitted s in
  if p (url s') then (true, tick 100 s') else (false, tick timeout s').

(** *** Base64 (standard and URL-safe alphabets, stops at the padding) *)

Definition b64_value (c : ascii) : option N :=
  let n := N_of_ascii c in
  if (65 <=? n) && (n <=? 90) then Some (n - 65)
  else if (97 <=? n) && (n <=? 122) then Some (n - 71)
  else if (48 <=? n) && (n <=? 57) then Some (n + 4)
  else if (n =? 43) || (n =? 45) then Some 62
  else if (n =? 47) || (n =? 95) then Some 63
  else None.

Definition to_byte (n : N) : byte :=
  match Byte.of_N (n mod 256) with
  | Some b => b
  | None => x00
  end.

Fixpoint b64_decode (acc : N) (bits : N) (s : string) : list byte :=
  match s with
  | EmptyString => []
  | String c rest =>
      if N_of_ascii c =? 61 then []
      else
        match b64_value c with
        | None => b64_decode acc bits rest
        | Some v =>
            let acc' := acc * 64 + v in
            let bits' := bits + 6 in
            if 8 <=? bits' then
              to_byte (N.shiftr acc' (bits' - 8))
                :: b64_decode (acc' mod 2 ^ (bits' - 8)) (bits' - 8) rest
            else b64_decode acc' bits' rest
        end
  end.

(** *** A parser for the documents the target serves: objects, arrays,
    strings without escapes, [true], [false] and [null] *)

Definition quote : ascii := ascii_of_nat 34.

Definition is_ws (c : ascii) : bool :=
  let n := N_of_ascii c in
  (n =? 32) || (n =? 9) || (n =? 10) || (n =? 13).

Fixpoint skip_ws (s : string) : string :=
  match s with
  | String c rest => if is_ws c then skip_ws rest else s
  | EmptyString => s
  end.

(** The characters up to the closing quote, and what follows it. *)
Fixpoint string_body (s : string) : option (string * string) :=
  match s with
  | EmptyString => None
  | String c rest =>
      if Ascii.eqb c quote then Some (EmptyString, rest)
      else if (N_of_ascii c =? 92) || (N_of_ascii c <? 32) then None
      else
        match string_body rest with
        | Some (body, rest') => Some (String c body, rest')
        | None => None
        end
  end.

Definition literal (word : string) (v : JSValue) (s : string)
    : option (JSValue * string) :=
  if String.prefix word s then Some (v, skip (String.length word) s) else None.

Fixpoint value (fuel : nat) (s : string) {struct fuel}
    : option (JSValue * string) :=
  match fuel with
  | O => None
  | S fuel' =>
      match skip_ws s with
      | String "[" rest =>
          match skip_ws rest with
          | String "]" rest' => Some (JArray [], rest')
          | _ =>
              match elements fuel' rest with
              | Some (vs, rest') => Some (JArray vs, rest')
              | None => None
              end
          end
      | String "{" rest =>
          match skip_ws rest with
          | String "}" rest' => Some (JObject [], rest')
          | _ =>
              match members fuel' rest with
              | Some (ms, rest') => Some (JObject ms, rest')
              | None => None
              end
          end
      | String "t" _ => literal "true" (JBool true) (skip_ws s)
      | String "f" _ => literal "false" (JBool false) (skip_ws s)
      | String "n" _ => literal "null" JNull (skip_ws s)
      | String c rest =>
          if Ascii.eqb c quote then
            match string_body rest with
            | Some (body, rest') => Some (JString body, rest')
            | None => None
            end
          else None
      | EmptyString => None
      end
  end
with elements (fuel : nat) (s : string) {struct fuel}
    : option (list JSValue * string) :=
  match fuel with
  | O => None
  | S fuel' =>
      match value fuel' s with
      | Some (v, rest) =>
          match skip_ws rest with
          | String "," rest' =>
              match elements fuel' rest' with
              | Some (vs, rest'') => Some (v :: vs, rest'')
              | None => None
              end
          | String "]" rest' => Some ([v], rest')
          | _ => None
          end
      | None => None
      end
  end
with members (fuel : nat) (s : string) {struct fuel}
    : option (list (string * JSValue) * string) :=
  match fuel with
  | O => None
  | S fuel' =>
      match skip_ws s with
      | String c rest =>
          if Ascii.eqb c quote then
            match string_body rest with
            | Some (key, rest1) =>
                match skip_ws rest1 with
                | String ":" rest2 =>
                    match value fuel' rest2 with
                    | Some (v, rest3) =>
                        match skip_ws rest3 with
                        | String "," rest4 =>
                            match members fuel' rest4 with
                            | Some (ms, rest5) => Some ((key, v) :: ms, rest5)
                            | None => None
                            end
                        | String "}" rest4 => Some ([(key, v)], rest4)
                        | _ => None
                        end
                    | None => None
                    end
                | _ => None
                end
            | None => None
            end
          else None
      | EmptyString => None
      end
  end.

Definition parse_document (s : string) : option JSValue :=
  match value (S (String.length s)) s with
  | Some (v, rest) =>
      match skip_ws rest with
      | EmptyString => Some v
      | _ => None
      end
  | None => None
  end.

#[global] Instance host : Host State := {
  Buffer_from_base64 := b64_decode 0 0;
  JSON_parse := parse_document;
  Date_now := sim_clock;
  chromium_launch := tick 800;
  page_goto := fun _ => tick 400;
  page_click_START := tick 100;
  page_waitForURL_step := tick 100;
  sessionStorage_getItem := sim_session;
  page_url := url;
  page_waitForTimeout := tick;
  evaluate_pushState := pushState;
  evaluate_dismiss := fun _ => tick 240;
  evaluate_enterCode := fun _ => tick 1;
  evaluate_submit := tick 1;
  page_waitForURL := waitForURL;
  page_screenshot := fun s => (true, tick 200 s);
  browser_close := fun s => (true, tick 50 s)
}.

End Sim.

(* ================================================================== *)
(** ** Sample data for the simulated target *)

Module Samples.

(** Thirty-one codes, as a session would hold them. *)
Definition codes31 : list string :=
  [ "A0B1C2"; "D1E2F3"; "G2H3I4"; "J3K4L5"; "M4N5O6"; "P5Q6R7"; "S6T7U8";
    "V7W8X9"; "Y8Z9A0"; "B9C0D1"; "E0F1G2"; "H1I2J3"; "K2L3M4"; "N3O4P5";
    "Q4R5S6"; "T5U6V7"; "W6X7Y8"; "Z7A8B9"; "C8D9E0"; "F9G0H1"; "I0J1K2";
    "L1M2N3"; "O2P3Q4"; "R3S4T5"; "U4V5W6"; "X5Y6Z7"; "A6B7C8"; "D7E8F9";
    "G8H9I0"; "J9K0L1"; "M0N1O2" ].

Definition table (n : nat) : list JSValue := map JString (firstn n codes31).

(** A table of thirty entries whose first entry is the empty string. *)
Definition table_with_empty : list JSValue := JString "" :: tl (table 30).

(** The session item for the document whose [codes] member lists
    "A1B2C3", "D4E5F6" and "G7H8I9": XOR with the key, then base64. *)
Definition blob3 : string :=
  "LG08XVRXR315E2MNfQd8BHZ1Y312BHcBGXVqbW4LcgZ/DG5tAk8=".

(** The same for [codes31]. *)
Definition blob31 : string :=
  "LG08XVRXR315E2MNfAd/BHd1Y312AXcGGXBqbW4LdwZ0DGNtcxB6AX9rD31jYG4IeglwGHl9HhJiAQ51GnZuYGcdcRFgGmcQHBBiaBRwGXVuaWwefQ12HgISHhYdegtxCH1nYmUAZwludQIQGH0LeQh+BnZsa2ccfRMBfQYWc2EGcgN4FXtlaXUea2AFYQJ9b2oVeRlzGHBne20IBGgFbWdhZGMWewR2BXx1Y31xCHYNGnNqbW4KfAl3DWZtcxB5An5uCHpjYG4Jfwp3GXx9HhJ9Bg9wGXVuYGccdBZjG2oQHBBhaxV9FnpuaWwfcA55BQUSHhYedQp2D3RnYmUBYApndAkQGH0EcAl1BXVsa2cddhQCfAMWc2EFcQJ9CnxlGCo=".

(** The text of that document. *)
Definition quoted (s : string) : string :=
  String Sim.quote (s ++ String Sim.quote EmptyString).

Definition document3 : string :=
  "{" ++ quoted "codes" ++ ":[" ++ quoted "A1B2C3" ++ "," ++ quoted "D4E5F6"
      ++ "," ++ quoted "G7H8I9" ++ "]}".

(** A session item that decodes to text which is not a document. *)
Definition blob_garbage : string := "OSArElpBWzE=".

(** The session item for a document whose [codes] member is an object
    with a [length] member that has a [toString] member of its own. *)
Definition blob_unprintable : string :=
  "LG08XVRXR315M2MgKSspMy11dSQQRF1nKzEhLytufyAyKTsyIk8=".

(** The target at step [n], at time 1000. *)
Definition target (n : N) (limit : N) (lag : nat) (bypass : bool)
    (session : option string) : Sim.State :=
  {| Sim.sim_loc := Sim.AtStep n; Sim.sim_limit := limit; Sim.sim_lag := lag;
     Sim.sim_bypass := bypass; Sim.sim_clock := 1000;
     Sim.sim_session := session |}.

(** The target on the finish page. *)
Definition at_finish : Sim.State :=
  {| Sim.sim_loc := Sim.AtFinish; Sim.sim_limit := 30; Sim.sim_lag := O;
     Sim.sim_bypass := false; Sim.sim_clock := 1000;
     Sim.sim_session := None |}.

(** The codes of [blob3]. *)
Definition codes3 : JSValue :=
  JArray [JString "A1B2C3"; JString "D4E5F6"; JString "G7H8I9"].

(** The variables at the start of the loop, and after step 5. *)
Definition fresh : Vars := {| lastStep := 0; runStats := initial_runStats 1000 |}.

Definition after_step_5 : Vars :=
  {| lastStep := 5; runStats := initial_runStats 1000 |}.

End Samples.

(* ================================================================== *)
(** ** Vocabulary for the statements *)

Section Vocabulary.

Context {T : Type} {host : Host T}.

(** The location shows step [n], and not the finish page. *)
Definition at_step (n : N) (t : T) : Prop :=
  includes "/finish" (page_url t) = false /\ step_of (page_url t) = Some n.

(** What the ordinary path asks of the driver for step [n] with the
    code [c] (lines 115-174): the sweep, the settle delay, the code
    typed, the click on submit, the wait for progress. *)
Definition submission (n : N) (c : JSValue) (t : T) : bool * T :=
  page_waitForURL (advanced_past n) 3500
    (evaluate_submit
       (evaluate_enterCode c
          (page_waitForTimeout 50 (evaluate_dismiss n t)))).

(** A target that never gets past step [k].  [shows n j t] relates the
    world to the step [n] the target is at and to a bound [j] on the
    submissions it still takes to bring it to step [k]; the location
    then shows step [n].  Below step [k], a submission of the code
    [typed n] either finds the target one step further when it is over,
    whether it moved at the click or during the wait and whether the
    wait resolved or not, or it is ignored: the wait is rejected and the
    target still shows step [n].  At step [k] every submission is
    ignored, whatever the code, and when [k] is 30 the history mutation
    changes nothing. *)
Record stalls_at (k : N) (typed : N -> JSValue) (shows : N -> nat -> T -> Prop)
    : Prop := {
  stalls_location : forall n j t, shows n j t -> at_step n t /\ n <= k;
  stalls_submission : forall n j t,
    shows n j t -> n < k ->
    exists j', (j' < j)%nat /\
      (shows (n + 1) j' (snd (submission n (typed n) t)) \/
       (fst (submission n (typed n) t) = false /\
        shows n j' (snd (submission n (typed n) t))));
  stalls_limit : forall j t c,
    shows k j t ->
    fst (submission k c t) = false /\
    exists j', shows k j' (snd (submission k c t));
  stalls_pushState : forall j t,
    k = 30 -> shows k j t ->
    exists j', shows k j' (page_waitForTimeout 500 (evaluate_pushState t))
}.

(** A clock that never runs backwards across a driver call. *)
Record clock_monotone : Prop := {
  clock_launch : forall t, (Date_now t <= Date_now (chromium_launch t))%Z;
  clock_goto : forall u t, (Date_now t <= Date_now (page_goto u t))%Z;
  clock_click : forall t, (Date_now t <= Date_now (page_click_START t))%Z;
  clock_waitForURL_step : forall t,
    (Date_now t <= Date_now (page_waitForURL_step t))%Z;
  clock_waitForTimeout : forall ms t,
    (0 <= ms)%Z -> (Date_now t <= Date_now (page_waitForTimeout ms t))%Z;
  clock_pushState : forall t, (Date_now t <= Date_now (evaluate_pushState t))%Z;
  clock_dismiss : forall m t, (Date_now t <= Date_now (evaluate_dismiss m t))%Z;
  clock_enterCode : forall c t,
    (Date_now t <= Date_now (evaluate_enterCode c t))%Z;
  clock_submit : forall t, (Date_now t <= Date_now (evaluate_submit t))%Z;
  clock_waitForURL : forall p ms t,
    (0 <= ms)%Z -> (Date_now t <= Date_now (snd (page_waitForURL p ms t)))%Z
}.

(** The step indices of the records logged so far, in order. *)
Definition logged_steps (v : Vars) : list N :=
  map step (stepDetails (runStats v)).

(** The log stays strictly increasing in the step index, and bounded
    by [lastStep] as long as the loop goes on. *)
Definition in_order (v : Vars) : Prop :=
  StronglySorted N.lt (logged_steps v) /\
  Forall (fun n => n <= lastStep v) (logged_steps v).

(** The method tags the source writes. *)
Definition known_method (r : AttemptRecord) : Prop :=
  method r = "code_submission" \/ method r = "history.pushState".

(** The number of times the body ran before the loop was left. *)
Definition polls (e : @LoopEnd T) : nat :=
  match exit_by e with
  | Break | Throws _ => S (attempt_at_exit e)
  | Next => attempt_at_exit e
  end.

End Vocabulary.

(** The simulated target of [Samples.target _ 3 _ false _]: at step
    [n], with submissions that stop working at step 3; the bound is the
    number of submissions it will ignore plus the steps left. *)
Definition shows_until_3 (n : N) (j : nat) (s : Sim.State) : Prop :=
  Sim.sim_loc s = Sim.AtStep n /\ 1 <= n <= 3 /\ Sim.sim_limit s = 3 /\
  Sim.sim_bypass s = false /\ j = (Sim.sim_lag s + N.to_nat (3 - n))%nat.

(* ================================================================== *)
(** ** Further vocabulary: records, cooperative targets, idle pages *)

Section MoreVocabulary.

Context {T : Type} {host : Host T}.

(** The two shapes a record of the log can have: a submission, with
    the code the lookup gave for its step, or the bypass of step 30. *)
Definition recorded_by (codes : JSValue) (r : AttemptRecord) : Prop :=
  (method r = "code_submission" /\ code r = codeFor codes (step r)) \/
  (method r = "history.pushState" /\ step r = 30 /\
   code r = JString "N/A (router bypass)").

(** The location carries neither the finish marker nor a step. *)
Definition unmarked (t : T) : Prop :=
  includes "/finish" (page_url t) = false /\ match_step (page_url t) = None.

(** A target that plays along.  Below step 30, a submission of the
    code [typed n] finds it one step further when it is over, or is
    ignored and has to be repeated, as for [stalls_at]; at step 30 the
    history mutation takes it to the finish page. *)
Record cooperates (typed : N -> JSValue) (shows : N -> nat -> T -> Prop)
    : Prop := {
  coop_location : forall n j t, shows n j t -> at_step n t /\ n <= 30;
  coop_submission : forall n j t,
    shows n j t -> n < 30 ->
    exists j', (j' < j)%nat /\
      (shows (n + 1) j' (snd (submission n (typed n) t)) \/
       (fst (submission n (typed n) t) = false /\
        shows n j' (snd (submission n (typed n) t))));
  coop_pushState : forall j t,
    shows 30 j t ->
    includes "/finish"
      (page_url (page_waitForTimeout 500 (evaluate_pushState t))) = true
}.

End MoreVocabulary.

(** The steps [first], [first + 1], ... : [count] of them. *)
Fixpoint steps_from (first : N) (count : nat) : list N :=
  match count with
  | O => []
  | S count' => first :: steps_from (first + 1) count'
  end.

(** The simulated target of [Samples.target _ 30 _ true _]: at step
    [n], with working submissions below step 30 and a working bypass. *)
Definition shows_until_30 (n : N) (j : nat) (s : Sim.State) : Prop :=
  Sim.sim_loc s = Sim.AtStep n /\ 1 <= n <= 30 /\ Sim.sim_limit s = 30 /\
  Sim.sim_bypass s = true /\ j = (Sim.sim_lag s + N.to_nat (30 - n))%nat.

(** A page that stays on the landing location: the world is the clock. *)
Module Idle.

Definition tick (ms : Z) (clock : Z) : Z := (clock + ms)%Z.

Definition host : Host Z := {|
  Buffer_from_base64 := Sim.b64_decode 0 0;
  JSON_parse := Sim.parse_document;
  Date_now := fun clock => clock;
  chromium_launch := tick 800;
  page_goto := fun _ => tick 400;
  page_click_START := tick 100;
  page_waitForURL_step := tick 3000;
  sessionStorage_getItem := fun _ => None;
  page_url := fun _ => BASE_URL;
  page_waitForTimeout := tick;
  evaluate_pushState := fun clock => clock;
  evaluate_dismiss := fun _ => tick 240;
  evaluate_enterCode := fun _ => tick 1;
  evaluate_submit := tick 1;
  page_waitForURL := fun _ timeout clock => (false, tick timeout clock);
  page_screenshot := fun clock => (true, tick 200 clock);
  browser_close := fun clock => (true, tick 50 clock)
|}.

End Idle.

(** The same platform with a [browser.close] that rejects. *)
Definition closing_fails {T : Type} (host : Host T) : Host T := {|
  Buffer_from_base64 := Buffer_from_base64;
  JSON_parse := JSON_parse;
  Date_now := Date_now;
  chromium_launch := chromium_launch;
  page_goto := page_goto;
  page_click_START := page_click_START;
  page_waitForURL_step := page_waitForURL_step;
  sessionStorage_getItem := sessionStorage_getItem;
  page_url := page_url;
  page_waitForTimeout := page_waitForTimeout;
  evaluate_pushState := evaluate_pushState;
  evaluate_dismiss := evaluate_dismiss;
  evaluate_enterCode := evaluate_enterCode;
  evaluate_submit := evaluate_submit;
  page_waitForURL := page_waitForURL;
  page_screenshot := page_screenshot;
  browser_close := fun t => (false, snd (browser_close t))
|}.

(** A target that is driven by the click.  It keeps the code typed
    last, and the click on submit takes it to the next step when that
    code is the one it expects for its step and the step is below
    [limit]; nothing moves during the wait, which resolves when the
    location satisfies the predicate already and times out otherwise.
    When [bypass] is set it follows the history mutation to the finish
    page. *)
Module Clicker.

Record State : Type := {
  loc : Sim.Location;
  limit : N;
  bypass : bool;
  typed : JSValue;
  clock : Z;
  session : option string
}.

(** The code the target accepts at step [n]: the entry [n] of the
    session codes. *)
Definition expected (n : N) : string :=
  nth (N.to_nat n) Samples.codes31 EmptyString.

Definition url (s : State) : string :=
  match loc s with
  | Sim.AtStep n => BASE_URL ++ "step" ++ ToString n
  | Sim.AtFinish => BASE_URL ++ "finish"
  end.

Definition tick (ms : Z) (s : State) : State :=
  {| loc := loc s; limit := limit s; bypass := bypass s; typed := typed s;
     clock := (clock s + ms)%Z; session := session s |}.

Definition move (l : Sim.Location) (s : State) : State :=
  {| loc := l; limit := limit s; bypass := bypass s; typed := JUndefined;
     clock := clock s; session := session s |}.

Definition enterCode (c : JSValue) (s : State) : State :=
  {| loc := loc s; limit := limit s; bypass := bypass s; typed := c;
     clock := (clock s + 1)%Z; session := session s |}.

Definition click (s : State) : State :=
  match loc s, typed s with
  | Sim.AtStep n, JString c =>
      if (n <? limit s) && String.eqb c (expected n)
      then move (Sim.AtStep (n + 1)) s
      else s
  | _, _ => s
  end.

Definition pushState (s : State) : State :=
  if bypass s then move Sim.AtFinish s else s.

Definition waitForURL (p : string -> bool) (timeout : Z) (s : State)
    : bool * State :=
  if p (url s) then (true, tick 100 s) else (false, tick timeout s).

#[global] Instance host : Host State := {
  Buffer_from_base64 := Sim.b64_decode 0 0;
  JSON_parse := Sim.parse_document;
  Date_now := clock;
  chromium_launch := tick 800;
  page_goto := fun _ => tick 400;
  page_click_START := tick 100;
  page_waitForURL_step := tick 100;
  sessionStorage_getItem := session;
  page_url := url;
  page_waitForTimeout := tick;
  evaluate_pushState := pushState;
  evaluate_dismiss := fun _ => tick 240;
  evaluate_enterCode := enterCode;
  evaluate_submit := click;
  page_waitForURL := waitForURL;
  page_screenshot := fun s => (true, tick 200 s);
  browser_close := fun s => (true, tick 50 s)
}.

(** The target at step [n], at time 1000, with the session of
    [Samples.blob31]. *)
Definition target (n : N) (limit : N) (bypass : bool) : State :=
  {| loc := Sim.AtStep n; limit := limit; bypass := bypass;
     typed := JUndefined; clock := 1000;
     session := Some Samples.blob31 |}.

(** The target at step [n] of [k], with [k - n] submissions to go. *)
Definition shows (k : N) (bypassing : bool) (n : N) (j : nat) (s : State)
    : Prop :=
  loc s = Sim.AtStep n /\ 1 <= n <= k /\ limit s = k /\
  bypass s = bypassing /\ j = N.to_nat (k - n).

End Clicker.

(* ================================================================== *)
(** ** The launchers: running the solver and reporting (solve.sh
    189-217, solve.ps1 133-167) *)

Module Launcher.

(** What the launchers print once the solver has run.  A banner is one
    entry, whatever the number of lines it takes; the duration shown in
    the completion banner is left out. *)
Inductive Line : Type :=
| Rule
| Blank
| CompleteBanner
| ScreenshotPaths
| ErrorBanner (code : Z).

(** A script in progress: the lines printed so far, and the exit status
    once it has left. *)
Inductive Script (A : Type) : Type :=
| Running (a : A) (out : list Line)
| Exited (status : Z) (out : list Line).
Arguments Running {A} a out.
Arguments Exited {A} status out.

Definition Sh (A : Type) : Type := list Line -> Script A.

Definition ret {A} (a : A) : Sh A := fun out => Running a out.

Definition seq {A B} (m : Sh A) (k : A -> Sh B) : Sh B :=
  fun out =>
    match m out with
    | Running a out' => k a out'
    | Exited status out' => Exited status out'
    end.

Definition echo (l : Line) : Sh unit := fun out => Running tt (out ++ [l])%list.

(** [exit n] *)
Definition exit (status : Z) : Sh unit := fun out => Exited status out.

(** A command that is run for its status.  Under [set -e] (solve.sh
    line 15) a status other than 0 ends the script with that status;
    PowerShell carries on and leaves the status in [$LASTEXITCODE]. *)
Definition command (errexit : bool) (status : Z) : Sh Z :=
  fun out =>
    if errexit && negb (status =? 0)%Z then Exited status out
    else Running status out.

(** The status and the output of a script that reaches its end: the
    last command of both scripts is a print, which succeeds. *)
Definition finish (s : Script unit) : Z * list Line :=
  match s with
  | Running _ out => (0%Z, out)
  | Exited status out => (status, out)
  end.

(** The lines 189-217 of solve.sh and 133-167 of solve.ps1 are the same
    script but for the treatment of the solver's status: [node_status]
    is the exit status of [node solver.js], [screenshot] tells whether
    output/final_screenshot.png exists afterwards. *)
Definition report (errexit : bool) (node_status : Z) (screenshot : bool)
    : Z * list Line :=
  finish
    (seq (command errexit node_status) (fun EXIT_CODE =>
     seq (echo Rule) (fun _ =>
     seq (echo Blank) (fun _ =>
     seq (if (EXIT_CODE =? 0)%Z then
            seq (echo CompleteBanner) (fun _ =>
            if screenshot then
              seq (echo Blank) (fun _ => echo ScreenshotPaths)
            else ret tt)
          else
            seq (echo (ErrorBanner EXIT_CODE)) (fun _ => exit EXIT_CODE))
         (fun _ => echo Blank))))
       []).

Definition solve_sh : Z -> bool -> Z * list Line := report true.
Definition solve_ps1 : Z -> bool -> Z * list Line := report false.

End Launcher.

(* ================================================================== *)
(** ** Properties of the code lookup and of the session codes *)

Lemma lxor_below (n a b : N) : a < 2 ^ n -> b < 2 ^ n -> N.lxor a b < 2 ^ n.
Proof.
  intros Ha Hb.
  assert (E : N.lxor a b mod 2 ^ n = N.lxor a b).
  { apply N.bits_inj; intro i.
    destruct (N.lt_ge_cases i n) as [Hi | Hi].
    - now rewrite N.mod_pow2_bits_low.
    - rewrite N.mod_pow2_bits_high by exact Hi.
      rewrite N.lxor_spec.
      rewrite <- (N.mod_small a (2 ^ n)) by exact Ha.
      rewrite <- (N.mod_small b (2 ^ n)) by exact Hb.
      now rewrite !N.mod_pow2_bits_high. }
  rewrite <- E. apply N.mod_lt. now apply N.pow_nonzero.
Qed.

Lemma charCodeAt_below (s : string) (i : nat) : charCodeAt s i < 256.
Proof.
  unfold charCodeAt. destruct (String.get i s).
  - apply N_ascii_bounded.
  - reflexivity.
Qed.

(** XOR with a key unit, applied twice, gives the unit back. *)
Lemma xor_unit_twice (c : ascii) (k : N) :
  k < 256 ->
  fromCharCode (N.lxor (N_of_ascii (fromCharCode (N.lxor (N_of_ascii c) k))) k) = c.
Proof.
  intro Hk. unfold fromCharCode.
  rewrite N_ascii_embedding.
  - rewrite N.lxor_assoc, N.lxor_nilpotent, N.lxor_0_r.
    apply ascii_N_embedding.
  - apply (lxor_below 8); [apply N_ascii_bounded | exact Hk].
Qed.

(** Round trip: the loop of [decrypt] undoes itself. *)
Lemma decrypt_from_twice (s : string) :
  forall i, decrypt_from i (decrypt_from i s) = s.
Proof.
  induction s as [| c rest IH]; intro i; simpl.
  - reflexivity.
  - rewrite xor_unit_twice by apply charCodeAt_below.
    now rewrite IH.
Qed.

(** The tests on a location, on three locations. *)
Example step_of_step12 : step_of (BASE_URL ++ "step12") = Some 12.
Proof. reflexivity. Qed.

Example step_of_leftmost_match : step_of "/steps/step07/step9" = Some 7.
Proof. reflexivity. Qed.

Example finish_location :
  includes "/finish" (BASE_URL ++ "finish") = true /\
  step_of (BASE_URL ++ "finish") = None.
Proof. split; reflexivity. Qed.

Lemma js_or_truthy (a b : JSValue) : truthy a = true -> js_or a b = a.
Proof. unfold js_or. now intros ->. Qed.

Lemma js_or_falsy (a b : JSValue) : truthy a = false -> js_or a b = b.
Proof. unfold js_or. now intros ->. Qed.

Lemma truthy_code (c : string) : c <> "" -> truthy (JString c) = true.
Proof.
  intro Hc. simpl. destruct (String.eqb_spec c ""); [contradiction | reflexivity].
Qed.

Lemma nth_entry (table : list JSValue) (i : nat) (v : JSValue) :
  nth_error table i = Some v -> nth i table JUndefined = v.
Proof. intro H. now apply nth_error_nth. Qed.

Lemma nth_last_entry (A : Type) (l : list A) (d : A) (n : nat) :
  List.length l = S n -> nth n l d = last l d.
Proof.
  revert n. induction l as [| x l IH]; intros n Hlen; [discriminate |].
  destruct l as [| y l].
  - simpl in Hlen. injection Hlen as <-. reflexivity.
  - destruct n as [| n]; [discriminate |].
    change (nth n (y :: l) d = last (y :: l) d).
    apply IH. simpl in *. lia.
Qed.

Section CodeRepository.

Context {T : Type} {host : Host T}.

(** C2 (as amended): the lookup is a total function of the table and
    the index.  It returns the entry at the index when that entry is
    truthy, and the entry at the fixed index 29 otherwise; for an index
    of 30 or more this is the last entry when the table has exactly
    thirty entries, and it is [undefined] when the table has fewer than
    thirty entries and the index lies beyond them. *)
Theorem codeFor_entry_or_index_29 (table : list JSValue) (i : N) :
  (truthy (js_index (JArray table) i) = true ->
     codeFor (JArray table) i = js_index (JArray table) i) /\
  (truthy (js_index (JArray table) i) = false ->
     codeFor (JArray table) i = js_index (JArray table) 29) /\
  (List.length table = 30%nat -> 30 <= i ->
     codeFor (JArray table) i = last table JUndefined) /\
  ((List.length table < 30)%nat -> N.of_nat (List.length table) <= i ->
     codeFor (JArray table) i = JUndefined).
Proof.
  unfold codeFor. repeat split.
  - apply js_or_truthy.
  - apply js_or_falsy.
  - intros Hlen Hi. simpl.
    rewrite (nth_overflow table JUndefined) by lia.
    change (nth 29 table JUndefined = last table JUndefined).
    now apply nth_last_entry.
  - intros Hlen Hi. simpl.
    rewrite (nth_overflow table JUndefined) by lia.
    change (nth 29 table JUndefined = JUndefined).
    apply nth_overflow. lia.
Qed.

(** C5: for a session item that is the base64 form of the XOR-encrypted
    text of a document whose [codes] member is a list, extraction yields
    that list, and the lookup of an index that holds a (non-empty) code
    returns exactly that code. *)
Theorem extract_then_codeFor (blob plaintext : string)
    (members : list (string * JSValue)) (table : list JSValue)
    (i : N) (c : string) :
  string_of_list_byte (Buffer_from_base64 blob) = decrypt_from 0 plaintext ->
  JSON_parse plaintext = Some (JObject members) ->
  get_member "codes" members = JArray table ->
  nth_error table (N.to_nat i) = Some (JString c) ->
  c <> "" ->
  extract (Some blob) = Ok (JArray table) /\
  codeFor (JArray table) i = JString c.
Proof.
  intros Hblob Hparse Hcodes Hentry Hc. split.
  - unfold extract, decrypt, parse. simpl.
    rewrite Hblob, decrypt_from_twice, Hparse. simpl.
    now rewrite Hcodes.
  - unfold codeFor. simpl.
    rewrite (nth_entry _ _ _ Hentry).
    apply js_or_truthy. now apply truthy_code.
Qed.

(** C10: an entry that is present but falsy, the empty string among
    them, is not what the lookup returns: the lookup yields the entry at
    the fixed index 29. *)
Theorem falsy_entry_falls_back (table : list JSValue) (i : N) (v : JSValue) :
  truthy (JString "") = false /\
  (nth_error table (N.to_nat i) = Some v ->
   truthy v = false ->
   codeFor (JArray table) i = js_index (JArray table) 29).
Proof.
  split; [reflexivity |].
  intros Hentry Hfalsy. unfold codeFor. simpl.
  rewrite (nth_entry _ _ _ Hentry).
  now apply js_or_falsy.
Qed.

End CodeRepository.

(** C2, as the claim states it, fails: with a table of 29 codes the
    lookup of index 35 is [undefined], and with a table of 31 codes it
    is the entry at index 29; neither is the last entry of its table. *)
Lemma codeFor_beyond_the_table :
  List.length (Samples.table 29) = 29%nat /\
  codeFor (JArray (Samples.table 29)) 35 = JUndefined /\
  last (Samples.table 29) JUndefined = JString "G8H9I0" /\
  codeFor (JArray (Samples.table 29)) 35 <> last (Samples.table 29) JUndefined /\
  List.length (Samples.table 31) = 31%nat /\
  codeFor (JArray (Samples.table 31)) 35 = JString "J9K0L1" /\
  last (Samples.table 31) JUndefined = JString "M0N1O2" /\
  codeFor (JArray (Samples.table 31)) 35 <> last (Samples.table 31) JUndefined.
Proof.
  repeat split; try reflexivity; vm_compute; discriminate.
Qed.

Lemma codeFor_entry_or_index_29_witness :
  codeFor (JArray (Samples.table 30)) 2 = JString "G2H3I4" /\
  codeFor (JArray Samples.table_with_empty) 0 = JString "J9K0L1" /\
  codeFor (JArray (Samples.table 30)) 35 = JString "J9K0L1" /\
  codeFor (JArray (Samples.table 29)) 35 = JUndefined.
Proof.
  split; [| split; [| split]].
  - apply (proj1 (codeFor_entry_or_index_29 (Samples.table 30) 2)).
    reflexivity.
  - apply (proj1 (proj2 (codeFor_entry_or_index_29 Samples.table_with_empty 0))).
    reflexivity.
  - apply (proj1 (proj2 (proj2 (codeFor_entry_or_index_29 (Samples.table 30) 35))));
      [reflexivity | vm_compute; discriminate].
  - apply (proj2 (proj2 (proj2 (codeFor_entry_or_index_29 (Samples.table 29) 35))));
      [vm_compute; lia | vm_compute; discriminate].
Defined.

Lemma extract_then_codeFor_witness :
  extract (Some Samples.blob3)
    = Ok (JArray [JString "A1B2C3"; JString "D4E5F6"; JString "G7H8I9"]) /\
  codeFor (JArray [JString "A1B2C3"; JString "D4E5F6"; JString "G7H8I9"]) 1
    = JString "D4E5F6".
Proof.
  apply (extract_then_codeFor (host := Sim.host) Samples.blob3 Samples.document3
           [("codes", JArray [JString "A1B2C3"; JString "D4E5F6"; JString "G7H8I9"])]
           [JString "A1B2C3"; JString "D4E5F6"; JString "G7H8I9"] 1 "D4E5F6").
  - vm_compute. reflexivity.
  - vm_compute. reflexivity.
  - reflexivity.
  - reflexivity.
  - discriminate.
Defined.

Lemma falsy_entry_falls_back_witness :
  codeFor (JArray Samples.table_with_empty) 0 = JString "J9K0L1".
Proof.
  apply (proj2 (falsy_entry_falls_back Samples.table_with_empty 0 (JString ""))).
  - reflexivity.
  - reflexivity.
Defined.

(* ================================================================== *)
(** ** Properties of the loop *)

Lemma increasing_snoc (l : list N) (x : N) :
  StronglySorted N.lt l -> Forall (fun y => y < x) l ->
  StronglySorted N.lt (l ++ [x])%list.
Proof.
  induction 1 as [| y l Hl IH Hy]; intro Hx; simpl.
  - repeat constructor.
  - inversion Hx; subst. constructor.
    + now apply IH.
    + apply Forall_app. split; [exact Hy | now repeat constructor].
Qed.

Lemma increasing_NoDup (l : list N) : StronglySorted N.lt l -> NoDup l.
Proof.
  induction 1 as [| y l Hl IH Hy]; constructor; [| exact IH].
  intro Hin. rewrite Forall_forall in Hy. specialize (Hy _ Hin). lia.
Qed.

Section Engine.

Context {T : Type} {host : Host T}.

Implicit Types (v : Vars) (t : T) (codes : JSValue).

Lemma for_loop_S fuel attempt codes v t :
  for_loop (S fuel) attempt codes v t =
  if (attempt <? 120)%nat then
    match loop_body codes v t with
    | (Break, v', t') =>
        Some {| exit_by := Break; attempt_at_exit := attempt;
                vars := v'; page := t' |}
    | (Next, v', t') => for_loop fuel (S attempt) codes v' t'
    | (Throws exn, v', t') =>
        Some {| exit_by := Throws exn; attempt_at_exit := attempt;
                vars := v'; page := t' |}
    end
  else
    Some {| exit_by := Next; attempt_at_exit := attempt; vars := v; page := t |}.
Proof. reflexivity. Qed.

Lemma loop_body_finished codes v t :
  includes "/finish" (page_url t) = true ->
  loop_body codes v t = (Break, {| lastStep := 30; runStats := runStats v |}, t).
Proof. intro H. unfold loop_body. now rewrite H. Qed.

(** Case analysis on every test of one iteration. *)
Ltac body_cases :=
  unfold loop_body, submit_code;
  repeat match goal with
  | |- context [page_waitForURL ?p ?ms ?t] =>
      let b := fresh "resolved" in
      let t5 := fresh "t5" in
      let E := fresh "Ewait" in
      destruct (page_waitForURL p ms t) as [b t5] eqn:E
  | |- context [if ?b then _ else _] =>
      let E := fresh "Etest" in destruct b eqn:E
  | |- context [match match_step ?u with _ => _ end] =>
      let E := fresh "Ematch" in destruct (match_step u) eqn:E
  end.

Lemma logged_steps_completed n r v :
  logged_steps (completed n r v) = (logged_steps v ++ [step r])%list.
Proof. unfold logged_steps, completed. simpl. now rewrite map_app. Qed.

(** A [break] always leaves [lastStep] at 30. *)
Lemma loop_body_break codes v t v' t' :
  loop_body codes v t = (Break, v', t') -> lastStep v' = 30.
Proof.
  body_cases; intro H; inversion H; subst; reflexivity.
Qed.

(** What one iteration can do to the variables: nothing, when it goes
    on to the next one or throws at line 112; set [lastStep] to 30, at
    a [break]; or log one record for a step above [lastStep] and set
    [lastStep] to that step.  The record is a submission with the
    looked-up code or the bypass of step 30, and its duration runs from
    the poll to the end of the iteration. *)
Lemma loop_body_shape codes v t f v' t' :
  loop_body codes v t = (f, v', t') ->
  ((f = Next \/ f = Throws TypeError) /\ v' = v) \/
  (f = Break /\ v' = {| lastStep := 30; runStats := runStats v |}) \/
  (exists r,
     (f = Next \/ f = Break) /\
     v' = completed (step r) r v /\ recorded_by codes r /\
     lastStep v < step r /\
     durationMs r = (Date_now t' - Date_now t)%Z).
Proof.
  body_cases; intro H; inversion H; subst; clear H;
    repeat match goal with
    | E : (_ <=? _) = false |- _ => apply N.leb_gt in E
    | E : (_ =? _) = true |- _ => apply N.eqb_eq in E
    end;
    try (left; split; [auto | reflexivity]);
    try (right; left; split; reflexivity);
    right; right;
    match goal with
    | |- exists r, _ /\ completed _ ?x _ = _ /\ _ => exists x
    end;
    (split; [auto |]); (split; [simpl; congruence |]); simpl;
    unfold recorded_by; simpl; (split; [| split]); auto; lia.
Qed.

(** A [break] happens at a location with the finish marker; the only
    exception is the [TypeError] of line 112. *)
Lemma loop_body_exits codes v t f v' t' :
  loop_body codes v t = (f, v', t') ->
  match f with
  | Break => includes "/finish" (page_url t') = true
  | Next => True
  | Throws exn => exn = TypeError
  end.
Proof.
  body_cases; intro H; inversion H; subst; auto.
Qed.

Lemma in_order_completed n r v :
  in_order v -> lastStep v < n -> step r = n -> in_order (completed n r v).
Proof.
  intros [Hs Hb] Hn Hr. unfold in_order.
  rewrite logged_steps_completed, Hr. split.
  - apply increasing_snoc; [exact Hs |].
    eapply Forall_impl; [| exact Hb]. simpl. intros; lia.
  - apply Forall_app. split.
    + eapply Forall_impl; [| exact Hb]. simpl. intros; lia.
    + repeat constructor. simpl. lia.
Qed.

Lemma loop_body_in_order codes v t f v' t' :
  in_order v -> loop_body codes v t = (f, v', t') ->
  StronglySorted N.lt (logged_steps v') /\ (f = Next -> in_order v').
Proof.
  intros Hv. body_cases; intro H; inversion H; subst; clear H;
    repeat match goal with
    | E : (_ <=? _) = false |- _ => apply N.leb_gt in E
    | E : (_ =? _) = true |- _ => apply N.eqb_eq in E
    end;
    try (split; [apply Hv | intros _; exact Hv]);
    try (split; [apply Hv | discriminate]);
    try (split; [| intros _]; apply in_order_completed; auto; lia).
  all: split; [| discriminate].
  all: apply in_order_completed; auto; simpl; lia.
Qed.

Lemma for_loop_in_order codes fuel :
  forall attempt v t e,
    in_order v -> for_loop fuel attempt codes v t = Some e ->
    StronglySorted N.lt (logged_steps (vars e)).
Proof.
  induction fuel as [| fuel IH]; intros attempt v t e Hv Hrun; [discriminate |].
  rewrite for_loop_S in Hrun.
  destruct (attempt <? 120)%nat.
  - destruct (loop_body codes v t) as [[f v'] t'] eqn:Ebody.
    destruct (loop_body_in_order _ _ _ _ _ _ Hv Ebody) as [Hsorted Hnext].
    destruct f.
    + injection Hrun as <-. exact Hsorted.
    + eapply IH; [apply Hnext; reflexivity | exact Hrun].
    + injection Hrun as <-. exact Hsorted.
  - injection Hrun as <-. apply Hv.
Qed.

Lemma known_method_push r rs :
  Forall known_method (stepDetails rs) -> known_method r ->
  Forall known_method (stepDetails (push r rs)).
Proof.
  intros Hrs Hr. simpl. apply Forall_app. split; [exact Hrs |].
  constructor; [exact Hr | constructor].
Qed.

Lemma loop_body_known_methods codes v t f v' t' :
  Forall known_method (stepDetails (runStats v)) ->
  loop_body codes v t = (f, v', t') ->
  Forall known_method (stepDetails (runStats v')).
Proof.
  intros Hv. body_cases; intro H; inversion H; subst; clear H;
    try exact Hv;
    unfold completed; cbn [runStats];
    apply known_method_push; try exact Hv; unfold known_method; simpl; auto.
Qed.

Lemma for_loop_known_methods codes fuel :
  forall attempt v t e,
    Forall known_method (stepDetails (runStats v)) ->
    for_loop fuel attempt codes v t = Some e ->
    Forall known_method (stepDetails (runStats (vars e))).
Proof.
  induction fuel as [| fuel IH]; intros attempt v t e Hv Hrun; [discriminate |].
  rewrite for_loop_S in Hrun.
  destruct (attempt <? 120)%nat.
  - destruct (loop_body codes v t) as [[f v'] t'] eqn:Ebody.
    pose proof (loop_body_known_methods _ _ _ _ _ _ Hv Ebody) as Hv'.
    destruct f.
    + injection Hrun as <-. exact Hv'.
    + eapply IH; [exact Hv' | exact Hrun].
    + injection Hrun as <-. exact Hv'.
  - injection Hrun as <-. exact Hv.
Qed.

(** The guard [attempt < 120] bounds the loop: with more fuel than
    iterations left, the loop is left by [break], at a location with
    the finish marker and with [lastStep] at 30, by its guard, with
    [attempt] at 120, or by the [TypeError] of line 112. *)
Lemma for_loop_terminates codes fuel :
  forall attempt v t,
    (attempt <= 120)%nat -> (120 - attempt < fuel)%nat ->
    exists e,
      for_loop fuel attempt codes v t = Some e /\
      (polls e <= 120)%nat /\
      match exit_by e with
      | Break =>
          includes "/finish" (page_url (page e)) = true /\
          lastStep (vars e) = 30
      | Next => attempt_at_exit e = 120%nat
      | Throws exn => exn = TypeError
      end.
Proof.
  induction fuel as [| fuel IH]; intros attempt v t Hle Hfuel; [lia |].
  rewrite for_loop_S.
  destruct (Nat.ltb_spec attempt 120) as [Hlt | Hge].
  - destruct (loop_body codes v t) as [[f v'] t'] eqn:Ebody.
    pose proof (loop_body_exits _ _ _ _ _ _ Ebody) as Hexit.
    destruct f.
    + eexists. split; [reflexivity |]. unfold polls. simpl. split; [lia |].
      split; [exact Hexit |]. eapply loop_body_break. exact Ebody.
    + apply IH; lia.
    + eexists. split; [reflexivity |]. unfold polls. simpl. split; [lia |].
      exact Hexit.
  - eexists. split; [reflexivity |]. unfold polls. simpl. lia.
Qed.

(** While the loop goes on, and when it throws, [lastStep] is the step
    of the last record of the log. *)
Lemma for_loop_lastStep codes fuel :
  forall attempt v t e,
    lastStep v = last (logged_steps v) 0 ->
    for_loop fuel attempt codes v t = Some e ->
    match exit_by e with
    | Break => lastStep (vars e) = 30
    | Next | Throws _ => lastStep (vars e) = last (logged_steps (vars e)) 0
    end.
Proof.
  induction fuel as [| fuel IH]; intros attempt v t e Hv Hrun; [discriminate |].
  rewrite for_loop_S in Hrun.
  destruct (attempt <? 120)%nat.
  - destruct (loop_body codes v t) as [[f v'] t'] eqn:Ebody.
    destruct (loop_body_shape _ _ _ _ _ _ Ebody)
      as [[Hf ->] | [[Hf ->] | (r & Hf & -> & _)]].
    + destruct Hf as [-> | ->].
      * eapply IH; eassumption.
      * injection Hrun as <-. exact Hv.
    + subst f. injection Hrun as <-. reflexivity.
    + assert (Hlast : lastStep (completed (step r) r v)
                      = last (logged_steps (completed (step r) r v)) 0).
      { unfold logged_steps, completed. simpl.
        rewrite map_app. simpl. now rewrite last_last. }
      destruct Hf as [-> | ->].
      * eapply IH; eassumption.
      * injection Hrun as <-.
        change (lastStep (completed (step r) r v) = 30).
        eapply loop_body_break. exact Ebody.
  - injection Hrun as <-. exact Hv.
Qed.

Lemma solve_settles start rs codes t :
  exists o, solve start rs codes t = Some o.
Proof.
  unfold solve.
  destruct (for_loop_terminates codes 121 0 {| lastStep := 0; runStats := rs |} t)
    as (e & -> & _); [lia | lia |].
  destruct (exit_by e); try (eexists; reflexivity);
    destruct (page_screenshot (page e)) as [[|] t1];
    try (eexists; reflexivity);
    destruct (browser_close t1) as [[|] t2]; eexists; reflexivity.
Qed.

Lemma main_settles t0 : exists o, main t0 = Some o.
Proof.
  unfold main. destruct (extract _).
  - apply solve_settles.
  - eexists. reflexivity.
Qed.


(** C7: when the poll at the head of the loop finds the finish marker
    in the location, the loop is left at once by [break]; the summary
    then counts all thirty steps as completed and reports success. *)
Theorem finished_completes_the_run (fuel attempt : nat) (codes : JSValue)
    (v : Vars) (t : T) (start : Z) :
  (attempt < 120)%nat ->
  totalSteps (runStats v) = 30 ->
  includes "/finish" (page_url t) = true ->
  exists e,
    for_loop (S fuel) attempt codes v t = Some e /\
    exit_by e = Break /\ attempt_at_exit e = attempt /\ page e = t /\
    stepDetails (runStats (vars e)) = stepDetails (runStats v) /\
    stepsCompleted (finalize start (vars e) (page e))
      = totalSteps (finalize start (vars e) (page e)) /\
    success (finalize start (vars e) (page e)) = true.
Proof.
  intros Hlt Htotal Hfinish.
  rewrite for_loop_S.
  destruct (Nat.ltb_spec attempt 120) as [_ | Hge]; [| lia].
  rewrite (loop_body_finished _ _ _ Hfinish).
  eexists. split; [reflexivity |]. simpl. rewrite Htotal. repeat split.
Qed.

Lemma at_step_match n t :
  at_step n t ->
  includes "/finish" (page_url t) = false /\
  exists m1, match_step (page_url t) = Some m1 /\ parseInt m1 = n.
Proof.
  intros [Hfinish Hstep]. split; [exact Hfinish |].
  unfold step_of in Hstep.
  destruct (match_step (page_url t)) as [m1 |]; [| discriminate].
  exists m1. split; [reflexivity |]. now injection Hstep.
Qed.

(** C1 (as amended): when step 30 is polled and the location shows the
    finish marker after the history mutation and the settle delay, the
    loop logs a record for step 30 with the sentinel in place of a code
    and the method tag [history.pushState], and is left by [break] with
    success.  In every run the method tag of every record is
    [code_submission] or [history.pushState]. *)
Theorem bypass_is_logged_as_pushState (fuel attempt : nat) (codes : JSValue)
    (v : Vars) (t : T) (start : Z) :
  ((attempt < 120)%nat ->
   at_step 30 t ->
   lastStep v < 30 ->
   includes "/finish"
     (page_url (page_waitForTimeout 500 (evaluate_pushState t))) = true ->
   exists e,
     for_loop (S fuel) attempt codes v t = Some e /\
     exit_by e = Break /\
     page e = page_waitForTimeout 500 (evaluate_pushState t) /\
     stepDetails (runStats (vars e))
       = (stepDetails (runStats v) ++
          [{| step := 30;
              code := JString "N/A (router bypass)";
              durationMs :=
                Date_now (page_waitForTimeout 500 (evaluate_pushState t))
                - Date_now t;
              method := "history.pushState" |}])%list /\
     success (finalize start (vars e) (page e)) = true) /\
  (forall e,
     Forall known_method (stepDetails (runStats v)) ->
     for_loop fuel attempt codes v t = Some e ->
     Forall known_method (stepDetails (runStats (vars e)))).
Proof.
  split; [| intros e; apply for_loop_known_methods].
  intros Hlt Hat Hlast Hfinish.
  destruct (at_step_match _ _ Hat) as (Hnot & m1 & Hm1 & Hparse).
  rewrite for_loop_S.
  destruct (Nat.ltb_spec attempt 120) as [_ | Hge]; [| lia].
  unfold loop_body. rewrite Hnot, Hm1, Hparse.
  destruct (N.leb_spec 30 (lastStep v)) as [Hle | _]; [lia |].
  rewrite N.eqb_refl, Hfinish.
  eexists. split; [reflexivity |]. repeat split.
Qed.

(** C8: a poll that shows a step at or below [lastStep] only waits and
    changes none of the variables; and in every run the step indices of
    the log are pairwise distinct, so that no step has two records. *)
Theorem completed_step_is_not_reprocessed (codes : JSValue) (v : Vars) (t : T)
    (n : N) (fuel : nat) (now : Z) (t0 : T) (e : LoopEnd) :
  (at_step n t -> n <= lastStep v ->
   loop_body codes v t = (Next, v, page_waitForTimeout 50 t)) /\
  (for_loop fuel 0 codes {| lastStep := 0; runStats := initial_runStats now |} t0
     = Some e ->
   NoDup (logged_steps (vars e))).
Proof.
  split.
  - intros Hat Hle.
    destruct (at_step_match _ _ Hat) as (Hnot & m1 & Hm1 & Hparse).
    unfold loop_body. rewrite Hnot, Hm1, Hparse.
    destruct (N.leb_spec n (lastStep v)) as [_ | Hgt]; [reflexivity | lia].
  - intro Hrun. apply increasing_NoDup.
    eapply for_loop_in_order; [| exact Hrun].
    split; constructor.
Qed.

(** *** A target that stalls *)

Section Stalled.

Variable k : N.
Variable codes : JSValue.
Variable shows : N -> nat -> T -> Prop.
Hypothesis stalls : stalls_at k (codeFor codes) shows.

Lemma shows_at_step n j t : shows n j t -> at_step n t.
Proof. intro H. apply (stalls_location _ _ _ stalls _ _ _ H). Qed.

(** A submission below step [k]: seen to advance, or to be repeated. *)
Lemma submit_code_below n j s0 v t :
  shows n j t -> n < k ->
  ToString_throws (codeFor codes n) = false ->
  exists j', (j' < j)%nat /\
    ((exists v' t',
        submit_code codes n s0 v t = (Next, v', t') /\
        lastStep v' = n /\ shows (n + 1) j' t') \/
     (exists t', submit_code codes n s0 v t = (Next, v, t') /\ shows n j' t')).
Proof.
  intros Hn Hlt Hprint.
  destruct (stalls_submission _ _ _ stalls _ _ _ Hn Hlt)
    as (j' & Hj' & Hcases).
  exists j'. split; [exact Hj' |].
  unfold submit_code. rewrite Hprint.
  unfold submission in Hcases.
  destruct (page_waitForURL _ _ _) as [resolved t5]. simpl in Hcases.
  destruct Hcases as [Hmoved | [-> Hsame]].
  - left.
    destruct (at_step_match _ _ (shows_at_step _ _ _ Hmoved))
      as (Hnot & m1 & Hm1 & Hparse).
    destruct resolved.
    + eexists _, t5. split; [reflexivity |]. split; [reflexivity | exact Hmoved].
    + rewrite Hnot, Hm1, Hparse.
      destruct (N.ltb_spec n (n + 1)) as [_ | Hge]; [| lia].
      eexists _, t5. split; [reflexivity |]. split; [reflexivity | exact Hmoved].
  - right.
    destruct (at_step_match _ _ (shows_at_step _ _ _ Hsame))
      as (Hnot & m1 & Hm1 & Hparse).
    rewrite Hnot, Hm1, Hparse, N.ltb_irrefl.
    exists t5. split; [reflexivity | exact Hsame].
Qed.

Lemma submit_code_at_limit j s0 v t :
  shows k j t ->
  ToString_throws (codeFor codes k) = false ->
  exists t' j', submit_code codes k s0 v t = (Next, v, t') /\ shows k j' t'.
Proof.
  intros Hk Hprint.
  destruct (stalls_limit _ _ _ stalls _ _ (codeFor codes k) Hk)
    as [Hrej (j' & Hsame)].
  unfold submit_code. rewrite Hprint.
  unfold submission in Hrej, Hsame.
  destruct (page_waitForURL _ _ _) as [resolved t5]. simpl in Hrej, Hsame.
  subst resolved.
  destruct (at_step_match _ _ (shows_at_step _ _ _ Hsame))
    as (Hnot & m1 & Hm1 & Hparse).
  rewrite Hnot, Hm1, Hparse, N.ltb_irrefl.
  exists t5, j'. split; [reflexivity | exact Hsame].
Qed.

Lemma loop_body_below n j v t :
  shows n j t -> lastStep v < n -> n < k -> k <= 30 ->
  ToString_throws (codeFor codes n) = false ->
  exists j', (j' < j)%nat /\
    ((exists v' t',
        loop_body codes v t = (Next, v', t') /\
        lastStep v' = n /\ shows (n + 1) j' t') \/
     (exists t', loop_body codes v t = (Next, v, t') /\ shows n j' t')).
Proof.
  intros Hn Hlast Hlt Hk Hprint.
  destruct (at_step_match _ _ (shows_at_step _ _ _ Hn))
    as (Hnot & m1 & Hm1 & Hparse).
  unfold loop_body. rewrite Hnot, Hm1, Hparse.
  destruct (N.leb_spec n (lastStep v)) as [Hle | _]; [lia |].
  destruct (N.eqb_spec n 30) as [-> | _]; [lia |].
  now apply submit_code_below.
Qed.

Lemma loop_body_at_limit j v t :
  shows k j t -> lastStep v < k ->
  ToString_throws (codeFor codes k) = false ->
  exists t' j', loop_body codes v t = (Next, v, t') /\ shows k j' t'.
Proof.
  intros Hk Hlast Hprint.
  destruct (at_step_match _ _ (shows_at_step _ _ _ Hk))
    as (Hnot & m1 & Hm1 & Hparse).
  unfold loop_body. rewrite Hnot, Hm1, Hparse.
  destruct (N.leb_spec k (lastStep v)) as [Hle | _]; [lia |].
  destruct (N.eqb_spec k 30) as [E | _].
  - destruct (stalls_pushState _ _ _ stalls _ _ E Hk) as (j2 & H2).
    destruct (shows_at_step _ _ _ H2) as [-> _].
    now apply (submit_code_at_limit j2).
  - now apply (submit_code_at_limit j).
Qed.

(** From step [n] on, with enough of the budget left for the
    submissions that bring the target to step [k], the loop runs out of
    its budget with [lastStep] at [k - 1] when it started below [k], and
    with [lastStep] unchanged when it started at [k]. *)
Lemma for_loop_stalled fuel :
  forall attempt v t n j,
    shows n j t -> lastStep v < n -> k <= 30 ->
    (forall m, n <= m <= k -> ToString_throws (codeFor codes m) = false) ->
    (attempt <= 120)%nat -> (120 - attempt < fuel)%nat ->
    (n < k -> (j <= 120 - attempt)%nat) ->
    exists e,
      for_loop fuel attempt codes v t = Some e /\
      exit_by e = Next /\
      lastStep (vars e) = (if n <? k then k - 1 else lastStep v).
Proof.
  induction fuel as [| fuel IH];
    intros attempt v t n j Hn Hlast Hk Hprint Hle Hfuel Hbudget; [lia |].
  pose proof (proj2 (stalls_location _ _ _ stalls _ _ _ Hn)) as Hnk.
  rewrite for_loop_S.
  destruct (N.ltb_spec n k) as [Hbelow | Hat].
  - specialize (Hbudget Hbelow).
    destruct (loop_body_below n j v t Hn Hlast Hbelow Hk)
      as (j' & Hj' & Hcases); [apply Hprint; lia |].
    destruct (Nat.ltb_spec attempt 120) as [Hlt | Hge]; [| lia].
    destruct Hcases as [(v' & t' & -> & Hlast' & Hn') | (t' & -> & Hn')].
    + destruct (IH (S attempt) v' t' (n + 1) j' Hn')
        as (e & Hrun & Hexit & Hfinal); try lia; try assumption.
      { intros m Hm. apply Hprint. lia. }
      exists e. split; [exact Hrun |]. split; [exact Hexit |].
      rewrite Hfinal. destruct (N.ltb_spec (n + 1) k); lia.
    + destruct (IH (S attempt) v t' n j' Hn')
        as (e & Hrun & Hexit & Hfinal); try lia; try assumption.
      exists e. split; [exact Hrun |]. split; [exact Hexit |].
      rewrite Hfinal. destruct (N.ltb_spec n k); [reflexivity | lia].
  - assert (n = k) as -> by lia.
    destruct (Nat.ltb_spec attempt 120) as [Hlt | Hge].
    + destruct (loop_body_at_limit j v t Hn Hlast) as (t' & j' & -> & Hk');
        [apply Hprint; lia |].
      destruct (IH (S attempt) v t' k j' Hk')
        as (e & Hrun & Hexit & Hfinal); try lia; try assumption.
      exists e. split; [exact Hrun |]. split; [exact Hexit |].
      rewrite Hfinal. now rewrite N.ltb_irrefl.
    + eexists. split; [reflexivity |]. split; reflexivity.
Qed.

End Stalled.

(** *** The clock and the start time *)

Lemma submit_code_clock codes n s0 v t f v' t' :
  clock_monotone ->
  submit_code codes n s0 v t = (f, v', t') -> (Date_now t <= Date_now t')%Z.
Proof.
  intros Hc. unfold submit_code.
  destruct (ToString_throws _); [intro H; inversion H; subst; lia |].
  set (t4 := evaluate_submit _).
  assert (H4 : (Date_now t <= Date_now t4)%Z).
  { subst t4.
    pose proof (clock_dismiss Hc n t).
    pose proof (clock_waitForTimeout Hc 50 (evaluate_dismiss n t) ltac:(lia)).
    pose proof (clock_enterCode Hc (codeFor codes n)
                  (page_waitForTimeout 50 (evaluate_dismiss n t))).
    pose proof (clock_submit Hc
                  (evaluate_enterCode (codeFor codes n)
                     (page_waitForTimeout 50 (evaluate_dismiss n t)))).
    lia. }
  pose proof (clock_waitForURL Hc (advanced_past n) 3500 t4 ltac:(lia)) as H5.
  destruct (page_waitForURL _ _ _) as [resolved t5]. simpl in H5.
  destruct resolved; [| destruct (includes _ _); [| destruct (match_step _);
    [destruct (_ <? _) |]]]; intro H; inversion H; subst; lia.
Qed.

Lemma loop_body_clock codes v t f v' t' :
  clock_monotone ->
  loop_body codes v t = (f, v', t') -> (Date_now t <= Date_now t')%Z.
Proof.
  intros Hc. unfold loop_body.
  pose proof (clock_waitForTimeout Hc 100 t ltac:(lia)).
  pose proof (clock_waitForTimeout Hc 50 t ltac:(lia)).
  pose proof (clock_pushState Hc t).
  pose proof (clock_waitForTimeout Hc 500 (evaluate_pushState t) ltac:(lia)).
  destruct (includes _ _); [intro H'; inversion H'; subst; lia |].
  destruct (match_step _); [| intro H'; inversion H'; subst; lia].
  destruct (_ <=? _); [intro H'; inversion H'; subst; lia |].
  destruct (_ =? _).
  - destruct (includes _ _); [intro H'; inversion H'; subst; lia |].
    intro H'. apply (submit_code_clock _ _ _ _ _ _ _ _ Hc) in H'. lia.
  - apply (submit_code_clock _ _ _ _ _ _ _ _ Hc).
Qed.

Lemma for_loop_clock codes fuel :
  clock_monotone ->
  forall attempt v t e,
    for_loop fuel attempt codes v t = Some e ->
    (Date_now t <= Date_now (page e))%Z.
Proof.
  intro Hc.
  induction fuel as [| fuel IH]; intros attempt v t e Hrun; [discriminate |].
  rewrite for_loop_S in Hrun.
  destruct (attempt <? 120)%nat.
  - destruct (loop_body codes v t) as [[f v'] t'] eqn:Ebody.
    pose proof (loop_body_clock _ _ _ _ _ _ Hc Ebody).
    destruct f.
    + injection Hrun as <-. simpl. lia.
    + apply IH in Hrun. lia.
    + injection Hrun as <-. simpl. lia.
  - injection Hrun as <-. simpl. lia.
Qed.

Lemma enter_clock t0 : clock_monotone -> (Date_now t0 <= Date_now (enter t0))%Z.
Proof.
  intro Hc. unfold enter.
  pose proof (clock_launch Hc t0).
  pose proof (clock_goto Hc BASE_URL (chromium_launch t0)).
  pose proof (clock_click Hc (page_goto BASE_URL (chromium_launch t0))).
  pose proof (clock_waitForURL_step Hc
                (page_click_START (page_goto BASE_URL (chromium_launch t0)))).
  lia.
Qed.

Lemma loop_body_startTime codes v t f v' t' :
  loop_body codes v t = (f, v', t') ->
  startTime (runStats v') = startTime (runStats v).
Proof.
  body_cases; intro H; inversion H; subst; reflexivity.
Qed.

Lemma for_loop_startTime codes fuel :
  forall attempt v t e,
    for_loop fuel attempt codes v t = Some e ->
    startTime (runStats (vars e)) = startTime (runStats v).
Proof.
  induction fuel as [| fuel IH]; intros attempt v t e Hrun; [discriminate |].
  rewrite for_loop_S in Hrun.
  destruct (attempt <? 120)%nat.
  - destruct (loop_body codes v t) as [[f v'] t'] eqn:Ebody.
    pose proof (loop_body_startTime _ _ _ _ _ _ Ebody) as Hstart.
    destruct f.
    + injection Hrun as <-. exact Hstart.
    + apply IH in Hrun. congruence.
    + injection Hrun as <-. exact Hstart.
  - now injection Hrun as <-.
Qed.

(** Once the loop is left otherwise than by an exception and the
    screenshot resolves, the summary of lines 207-211 is written, after
    the screenshot; the main function then fulfils if the close
    resolves, and rejects if it does not. *)
Lemma solve_after_loop start rs codes t e :
  for_loop 121 0 codes {| lastStep := 0; runStats := rs |} t = Some e ->
  exit_by e = Next \/ exit_by e = Break ->
  fst (page_screenshot (page e)) = true ->
  exists o,
    solve start rs codes t = Some o /\
    files o = {| final_screenshot := true;
                 run_stats_json := Some (finalize start (vars e) (page e)) |} /\
    settled o = (if fst (browser_close (snd (page_screenshot (page e))))
                 then Fulfilled else Rejected DriverError).
Proof.
  intros Hrun Hexit Hshot. unfold solve. rewrite Hrun.
  destruct (page_screenshot (page e)) as [shot t1]. simpl in Hshot. subst shot.
  simpl. destruct (browser_close t1) as [[|] t2];
    destruct Hexit as [-> | ->]; eexists;
    (split; [reflexivity |]); split; reflexivity.
Qed.

(** C6 (as amended): let the target never get past step [k], at most
    30: below step [k] a submission of the looked-up code brings it one
    step further, at the click or during the wait, or is ignored and
    repeated, and at step [k] every submission is ignored.  Let it be at
    step [first] when the loop starts, with [first] below [k] or equal
    to 1, and need at most 120 submissions to reach step [k]; let the
    looked-up codes of the steps from [first] to [k] convert to
    strings, the clock never run backwards and the screenshot resolve.
    Then the run uses up its budget; the screenshot and the summary are
    written; the summary has [success] unset, [stepsCompleted] at
    [k - 1], an end time that is not before the start time, and a total
    duration that is not negative. *)
Theorem stalled_run_is_summarised (k first : N) (j : nat)
    (shows : N -> nat -> T -> Prop) (t0 : T) (codes : JSValue) :
  stalls_at k (codeFor codes) shows ->
  clock_monotone ->
  k <= 30 ->
  1 <= first ->
  first < k \/ first = 1 ->
  (forall n, first <= n <= k -> ToString_throws (codeFor codes n) = false) ->
  (forall t, fst (page_screenshot t) = true) ->
  extract (sessionStorage_getItem (enter t0)) = Ok codes ->
  shows first j (enter t0) ->
  (j <= 120)%nat ->
  exists o stats finish,
    main t0 = Some o /\
    final_screenshot (files o) = true /\
    run_stats_json (files o) = Some stats /\
    success stats = false /\
    stepsCompleted stats = k - 1 /\
    endTime stats = Some finish /\
    (startTime stats <= finish)%Z /\
    (0 <= totalDurationSeconds stats)%Q.
Proof.
  intros Hstalls Hclock Hk Hfirst Hopen Hprint Hshot Hcodes Hshows Hj.
  pose proof (proj2 (stalls_location _ _ _ Hstalls _ _ _ Hshows)) as Hle.
  destruct (for_loop_stalled k codes shows Hstalls 121 0
              {| lastStep := 0; runStats := initial_runStats (Date_now t0) |}
              (enter t0) first j Hshows)
    as (e & Hrun & Hexit & Hlast);
    [simpl; lia | exact Hk | exact Hprint | lia | lia | lia |].
  destruct (solve_after_loop (Date_now t0) _ _ _ _ Hrun (or_introl Hexit)
              (Hshot (page e))) as (o & Hsolve & Hfiles & _).
  pose proof (for_loop_clock codes 121 Hclock _ _ _ _ Hrun) as Hlate.
  pose proof (enter_clock t0 Hclock) as Hearly.
  pose proof (for_loop_startTime codes 121 _ _ _ _ Hrun) as Hstart.
  simpl in Hlast, Hstart.
  assert (Hsteps : lastStep (vars e) = k - 1).
  { rewrite Hlast. destruct (N.ltb_spec first k); lia. }
  exists o, (finalize (Date_now t0) (vars e) (page e)), (Date_now (page e)).
  unfold main. rewrite Hcodes, Hsolve, Hfiles. simpl.
  repeat split.
  - rewrite Hsteps. apply N.eqb_neq. lia.
  - exact Hsteps.
  - rewrite Hstart. lia.
  - unfold Qle. simpl. lia.
Qed.

(** C4 (as amended): when the codes cannot be extracted, the main
    function rejects at once with that exception, and neither the
    summary nor the screenshot is written.  Extraction fails with a
    [TypeError] when the session item is absent, with a [SyntaxError]
    when the decrypted text does not parse, and with a [TypeError] when
    the document has no [codes] member. *)
Theorem decode_failure_aborts_unflushed (t0 : T) :
  (forall e,
     extract (sessionStorage_getItem (enter t0)) = Throw e ->
     main t0
       = Some {| settled := Rejected e;
                 files := {| final_screenshot := false; run_stats_json := None |};
                 world := enter t0 |}) /\
  extract None = Throw TypeError /\
  (forall blob,
     JSON_parse (decrypt_from 0 (string_of_list_byte (Buffer_from_base64 blob)))
       = None ->
     extract (Some blob) = Throw SyntaxError) /\
  (forall blob members,
     JSON_parse (decrypt_from 0 (string_of_list_byte (Buffer_from_base64 blob)))
       = Some (JObject members) ->
     get_member "codes" members = JUndefined ->
     extract (Some blob) = Throw TypeError).
Proof.
  repeat split.
  - intros e He. unfold main. now rewrite He.
  - intros blob Hparse. unfold extract, decrypt, parse. simpl. now rewrite Hparse.
  - intros blob members Hparse Hcodes. unfold extract, decrypt, parse. simpl.
    rewrite Hparse. simpl. now rewrite Hcodes.
Qed.

End Engine.

(* ================================================================== *)
(** ** The simulated targets: facts, and the statements at work on them *)

Lemma In_steps_from (count : nat) :
  forall first n,
    first <= n -> n < first + N.of_nat count -> In n (steps_from first count).
Proof.
  induction count as [| count IH]; intros first n Hle Hlt; [lia |].
  simpl. destruct (N.eq_dec first n) as [-> | Hne]; [now left | right].
  apply IH; lia.
Qed.

Lemma locations_1_to_30 :
  forallb
    (fun n =>
       negb (includes "/finish" (BASE_URL ++ "step" ++ ToString n)) &&
       match step_of (BASE_URL ++ "step" ++ ToString n) with
       | Some m => m =? n
       | None => false
       end)
    (steps_from 1 30) = true.
Proof. vm_compute. reflexivity. Qed.

(** The location of step [n] carries that step and no finish marker. *)
Lemma location_of_step (n : N) :
  1 <= n <= 30 ->
  includes "/finish" (BASE_URL ++ "step" ++ ToString n) = false /\
  step_of (BASE_URL ++ "step" ++ ToString n) = Some n.
Proof.
  intro Hn. pose proof locations_1_to_30 as Hall.
  rewrite forallb_forall in Hall.
  specialize (Hall n (In_steps_from 30 1 n ltac:(lia) ltac:(lia))).
  apply andb_prop in Hall. destruct Hall as [Hfinish Hstep].
  apply negb_true_iff in Hfinish. split; [exact Hfinish |].
  destruct (step_of _) as [m |]; [| discriminate].
  apply N.eqb_eq in Hstep. now subst.
Qed.

(** A location that shows step [n] is not past step [n]. *)
Lemma not_advanced_past (n : N) (u : string) :
  includes "/finish" u = false -> step_of u = Some n ->
  advanced_past n u = false.
Proof.
  unfold advanced_past, step_of. intros -> Hstep.
  destruct (match_step u) as [m1 |]; [| reflexivity].
  injection Hstep as ->. simpl. apply N.ltb_irrefl.
Qed.

Lemma sim_url_at_step (s : Sim.State) (n : N) :
  Sim.sim_loc s = Sim.AtStep n -> 1 <= n <= 30 -> at_step n s.
Proof.
  intros Hloc Hn. unfold at_step.
  change (page_url s) with (Sim.url s). unfold Sim.url. rewrite Hloc.
  now apply location_of_step.
Qed.

(** What a submission does to the simulated target: it is ignored as
    long as there is a lag, and moves the target on below its limit. *)
Lemma sim_submission (n : N) (c : JSValue) (s : Sim.State) :
  Sim.sim_loc s = Sim.AtStep n -> 1 <= n <= 30 ->
  Sim.sim_limit (snd (submission n c s)) = Sim.sim_limit s /\
  Sim.sim_bypass (snd (submission n c s)) = Sim.sim_bypass s /\
  match Sim.sim_lag s with
  | S lag =>
      fst (submission n c s) = false /\
      Sim.sim_loc (snd (submission n c s)) = Sim.AtStep n /\
      Sim.sim_lag (snd (submission n c s)) = lag
  | O =>
      Sim.sim_lag (snd (submission n c s)) = O /\
      if n <? Sim.sim_limit s
      then Sim.sim_loc (snd (submission n c s)) = Sim.AtStep (n + 1)
      else fst (submission n c s) = false /\
           Sim.sim_loc (snd (submission n c s)) = Sim.AtStep n
  end.
Proof.
  intros Hloc Hn.
  destruct (location_of_step n Hn) as [Hfinish Hstep].
  pose proof (not_advanced_past n _ Hfinish Hstep) as Hstay.
  destruct s as [loc lim lag byp clk sess]. simpl in Hloc. subst loc.
  change (submission n c ?s)
    with (Sim.waitForURL (advanced_past n) 3500
            (Sim.tick 1 (Sim.tick 1 (Sim.tick 50 (Sim.tick 240 s))))).
  unfold Sim.waitForURL, Sim.submitted, Sim.tick, Sim.move, Sim.url.
  cbn [Sim.sim_loc Sim.sim_limit Sim.sim_lag Sim.sim_bypass Sim.sim_clock
       Sim.sim_session].
  destruct lag as [| lag].
  - destruct (n <? lim).
    + cbn [Sim.sim_loc].
      match goal with
      | |- context [if ?moved then _ else _] => destruct moved
      end; cbn [fst snd Sim.sim_loc Sim.sim_limit Sim.sim_lag Sim.sim_bypass];
        repeat split.
    + cbn [Sim.sim_loc]. rewrite Hstay.
      cbn [fst snd Sim.sim_loc Sim.sim_limit Sim.sim_lag Sim.sim_bypass].
      repeat split.
  - cbn [Sim.sim_loc]. rewrite Hstay.
    cbn [fst snd Sim.sim_loc Sim.sim_limit Sim.sim_lag Sim.sim_bypass].
    repeat split.
Qed.

Lemma sim_stalls_at_3 (typed : N -> JSValue) : stalls_at 3 typed shows_until_3.
Proof.
  constructor.
  - intros n j s (Hloc & Hn & _). split; [apply sim_url_at_step; [exact Hloc | lia] | lia].
  - intros n j s (Hloc & Hn & Hlim & Hbyp & Hj) Hlt.
    destruct (sim_submission n (typed n) s Hloc ltac:(lia))
      as (Hlim' & Hbyp' & Hcases).
    rewrite Hlim, Hbyp in *.
    destruct (Sim.sim_lag s) as [| lag].
    + destruct Hcases as [Hlag' Hmoved].
      destruct (N.ltb_spec n 3) as [_ | Hge]; [| lia].
      exists (N.to_nat (3 - (n + 1))). split; [lia |]. left.
      unfold shows_until_3. rewrite Hlag'. repeat split; assumption || lia.
    + destruct Hcases as (Hrej & Hloc' & Hlag').
      exists (lag + N.to_nat (3 - n))%nat. split; [lia |]. right.
      split; [exact Hrej |].
      unfold shows_until_3. rewrite Hlag'. repeat split; assumption || lia.
  - intros j s c (Hloc & Hn & Hlim & Hbyp & Hj).
    destruct (sim_submission 3 c s Hloc ltac:(lia))
      as (Hlim' & Hbyp' & Hcases).
    rewrite Hlim, Hbyp in *.
    destruct (Sim.sim_lag s) as [| lag].
    + destruct Hcases as [Hlag' Hstay].
      change (3 <? 3) with false in Hstay. destruct Hstay as [Hrej Hloc'].
      split; [exact Hrej |]. exists O.
      unfold shows_until_3. rewrite Hlag'. repeat split; assumption || lia.
    + destruct Hcases as (Hrej & Hloc' & Hlag').
      split; [exact Hrej |]. exists lag.
      unfold shows_until_3. rewrite Hlag'. repeat split; assumption || lia.
  - intros j s Hk. discriminate Hk.
Qed.

Lemma sim_clock_monotone : clock_monotone (host := Sim.host).
Proof.
  constructor; simpl; intros; try lia.
  - unfold Sim.pushState. destruct (Sim.sim_bypass t); simpl; lia.
  - unfold Sim.waitForURL. destruct (p _); simpl.
    all: unfold Sim.submitted; destruct (Sim.sim_lag t); simpl; try lia.
    all: destruct (Sim.sim_loc t); simpl; try lia.
    all: destruct (_ <? _); simpl; lia.
Qed.

(** The codes of [Samples.blob31], looked up for the steps below 30,
    are the ones the click-driven target expects. *)
Lemma codes31_expected :
  forallb
    (fun n =>
       match codeFor (JArray (Samples.table 31)) n with
       | JString c => String.eqb c (Clicker.expected n)
       | _ => false
       end)
    (steps_from 1 30) = true.
Proof. vm_compute. reflexivity. Qed.

Lemma codeFor_codes31 (n : N) :
  1 <= n <= 30 ->
  codeFor (JArray (Samples.table 31)) n = JString (Clicker.expected n).
Proof.
  intro Hn. pose proof codes31_expected as Hall.
  rewrite forallb_forall in Hall.
  specialize (Hall n (In_steps_from 30 1 n ltac:(lia) ltac:(lia))).
  destruct (codeFor _ n); try discriminate.
  apply String.eqb_eq in Hall. now subst.
Qed.

Lemma clicker_url_at_step (s : Clicker.State) (n : N) :
  Clicker.loc s = Sim.AtStep n -> 1 <= n <= 30 -> at_step n s.
Proof.
  intros Hloc Hn. unfold at_step.
  change (page_url s) with (Clicker.url s). unfold Clicker.url. rewrite Hloc.
  now apply location_of_step.
Qed.

(** What a submission does to the click-driven target: the click moves
    it on when the expected code was typed below its limit, and the
    wait only looks. *)
Lemma clicker_submission (n : N) (c : JSValue) (s : Clicker.State) :
  Clicker.loc s = Sim.AtStep n -> 1 <= n <= 30 ->
  Clicker.limit (snd (submission n c s)) = Clicker.limit s /\
  Clicker.bypass (snd (submission n c s)) = Clicker.bypass s /\
  (((n <? Clicker.limit s) = true /\ c = JString (Clicker.expected n) /\
    Clicker.loc (snd (submission n c s)) = Sim.AtStep (n + 1)) \/
   (((n <? Clicker.limit s) = false \/ c <> JString (Clicker.expected n)) /\
    fst (submission n c s) = false /\
    Clicker.loc (snd (submission n c s)) = Sim.AtStep n)).
Proof.
  intros Hloc Hn.
  destruct (location_of_step n Hn) as [Hfinish Hstep].
  pose proof (not_advanced_past n _ Hfinish Hstep) as Hstay.
  destruct s as [loc lim byp typed clk sess]. simpl in Hloc. subst loc.
  change (submission n c ?s)
    with (Clicker.waitForURL (advanced_past n) 3500
            (Clicker.click
               (Clicker.enterCode c (Clicker.tick 50 (Clicker.tick 240 s))))).
  unfold Clicker.waitForURL, Clicker.click, Clicker.enterCode, Clicker.tick,
    Clicker.move, Clicker.url.
  cbn [Clicker.loc Clicker.limit Clicker.bypass Clicker.typed Clicker.clock
       Clicker.session].
  assert (Hignored :
    forall s', Clicker.loc s' = Sim.AtStep n -> Clicker.limit s' = lim ->
      Clicker.bypass s' = byp ->
      (n <? lim) = false \/ c <> JString (Clicker.expected n) ->
      let r := if advanced_past n (Clicker.url s')
               then (true, Clicker.tick 100 s') else (false, Clicker.tick 3500 s') in
      Clicker.limit (snd r) = lim /\ Clicker.bypass (snd r) = byp /\
      (((n <? lim) = true /\ c = JString (Clicker.expected n) /\
        Clicker.loc (snd r) = Sim.AtStep (n + 1)) \/
       (((n <? lim) = false \/ c <> JString (Clicker.expected n)) /\
        fst r = false /\ Clicker.loc (snd r) = Sim.AtStep n))).
  { intros s' Hloc' Hlim' Hbyp' Hwhy. unfold Clicker.url. rewrite Hloc', Hstay.
    cbn [fst snd Clicker.tick Clicker.loc Clicker.limit Clicker.bypass].
    repeat split; try assumption. right. repeat split; assumption. }
  destruct c as [| | b | x | c | elems | members];
    try (apply (Hignored {| Clicker.loc := Sim.AtStep n |});
         [reflexivity | reflexivity | reflexivity | right; discriminate]).
  destruct (n <? lim) eqn:Hlt; cbn [andb].
  - destruct (String.eqb_spec c (Clicker.expected n)) as [-> | Hne].
    + cbn [Clicker.loc].
      match goal with
      | |- context [if ?moved then _ else _] => destruct moved
      end; cbn [fst snd Clicker.loc Clicker.limit Clicker.bypass];
        (split; [reflexivity |]); (split; [reflexivity |]);
        left; repeat split.
    + apply (Hignored {| Clicker.loc := Sim.AtStep n |});
        [reflexivity | reflexivity | reflexivity | right; congruence].
  - apply (Hignored {| Clicker.loc := Sim.AtStep n |});
      [reflexivity | reflexivity | reflexivity | left; reflexivity].
Qed.

(** The click-driven target with limit [k] and no bypass never gets
    past step [k], for an engine that types the expected codes. *)
Lemma clicker_stalls (k : N) (typed : N -> JSValue) :
  k <= 30 ->
  (forall n, 1 <= n < k -> typed n = JString (Clicker.expected n)) ->
  stalls_at k typed (Clicker.shows k false).
Proof.
  intros Hk Htyped. constructor.
  - intros n j s (Hloc & Hn & _).
    split; [apply clicker_url_at_step; [exact Hloc | lia] | lia].
  - intros n j s (Hloc & Hn & Hlim & Hbyp & Hj) Hlt.
    destruct (clicker_submission n (typed n) s Hloc ltac:(lia))
      as (Hlim' & Hbyp' & Hcases).
    rewrite Hlim, Hbyp in *.
    exists (N.to_nat (k - (n + 1))). split; [lia |]. left.
    destruct Hcases as [(_ & _ & Hloc') | ([Hstuck | Hother] & _)].
    + unfold Clicker.shows. repeat split; assumption || lia.
    + apply N.ltb_ge in Hstuck. lia.
    + elim Hother. apply Htyped. lia.
  - intros j s c (Hloc & Hn & Hlim & Hbyp & Hj).
    destruct (clicker_submission k c s Hloc ltac:(lia))
      as (Hlim' & Hbyp' & Hcases).
    rewrite Hlim, Hbyp in *.
    destruct Hcases as [(Hlt & _) | (_ & Hrej & Hloc')].
    + apply N.ltb_lt in Hlt. lia.
    + split; [exact Hrej |]. exists j.
      unfold Clicker.shows. repeat split; assumption || lia.
  - intros j s _ (Hloc & Hn & Hlim & Hbyp & Hj). exists j.
    change (Clicker.shows k false k j (Clicker.tick 500 (Clicker.pushState s))).
    unfold Clicker.pushState. rewrite Hbyp.
    unfold Clicker.shows. simpl. repeat split; assumption || lia.
Qed.

Lemma clicker_clock_monotone : clock_monotone (host := Clicker.host).
Proof.
  constructor; simpl; intros; try lia.
  - unfold Clicker.pushState. destruct (Clicker.bypass t); simpl; lia.
  - unfold Clicker.click. destruct (Clicker.loc t); simpl; try lia.
    destruct (Clicker.typed t); simpl; try lia.
    destruct (_ && _); simpl; lia.
  - unfold Clicker.waitForURL. destruct (p _); simpl; lia.
Qed.

(** C1, as the claim states it, fails: on a target that follows the
    history mutation to the finish page, the run succeeds and logs one
    record for step 30, whose method tag is [history.pushState]; no
    record carries the tag [router_bypass]. *)
Lemma bypass_record_is_not_router_bypass :
  exists e,
    for_loop 121 0 (JArray (Samples.table 30)) Samples.fresh
      (Samples.target 30 30 0 true None) = Some e /\
    success (finalize 1000 (vars e) (page e)) = true /\
    map step (stepDetails (runStats (vars e))) = [30] /\
    map method (stepDetails (runStats (vars e))) = ["history.pushState"] /\
    ~ In "router_bypass" (map method (stepDetails (runStats (vars e)))).
Proof.
  eexists. split; [vm_compute; reflexivity |].
  repeat split. simpl. intros [H | []]. discriminate H.
Qed.

Lemma bypass_is_logged_as_pushState_witness :
  (exists e,
     for_loop 121 0 (JArray (Samples.table 30)) Samples.fresh
       (Samples.target 30 30 0 true None) = Some e /\
     exit_by e = Break /\
     page e = page_waitForTimeout 500
                (evaluate_pushState (Samples.target 30 30 0 true None)) /\
     stepDetails (runStats (vars e))
       = [{| step := 30; code := JString "N/A (router bypass)";
             durationMs := 500; method := "history.pushState" |}] /\
     success (finalize 1000 (vars e) (page e)) = true) /\
  (forall e,
     Forall known_method (stepDetails (runStats Samples.fresh)) ->
     for_loop 120 0 (JArray (Samples.table 30)) Samples.fresh
       (Samples.target 30 30 0 true None) = Some e ->
     Forall known_method (stepDetails (runStats (vars e)))).
Proof.
  destruct (bypass_is_logged_as_pushState 120 0 (JArray (Samples.table 30))
              Samples.fresh (Samples.target 30 30 0 true None) 1000)
    as [Hlogged Hmethods].
  split; [| exact Hmethods].
  apply Hlogged.
  - lia.
  - split; vm_compute; reflexivity.
  - reflexivity.
  - vm_compute. reflexivity.
Defined.

(** C3: a run that uses up its budget without success fulfils all the
    same, and the process exits with status 0. *)
Lemma exhausted_run_exits_with_status_0 :
  exists o stats,
    main (Samples.target 1 3 0 false (Some Samples.blob3)) = Some o /\
    run_stats_json (files o) = Some stats /\
    success stats = false /\
    stepsCompleted stats = 2 /\
    exit_status o = 0%Z.
Proof.
  eexists _, _. split; [vm_compute; reflexivity |]. repeat split.
Qed.

(** C4, as the claim states it, fails: with the session item absent,
    or with an item that does not decrypt to a document, the main
    function rejects and leaves neither summary nor screenshot. *)
Lemma decode_failure_writes_nothing :
  (exists o,
     main (Samples.target 1 3 0 false None) = Some o /\
     settled o = Rejected TypeError /\
     final_screenshot (files o) = false /\
     run_stats_json (files o) = None) /\
  (exists o,
     main (Samples.target 1 3 0 false (Some Samples.blob_garbage)) = Some o /\
     settled o = Rejected SyntaxError /\
     final_screenshot (files o) = false /\
     run_stats_json (files o) = None).
Proof.
  split; eexists; (split; [vm_compute; reflexivity |]); repeat split.
Qed.

Lemma decode_failure_aborts_unflushed_witness :
  main (Samples.target 1 3 0 false None)
    = Some {| settled := Rejected TypeError;
              files := {| final_screenshot := false; run_stats_json := None |};
              world := enter (Samples.target 1 3 0 false None) |} /\
  extract (host := Sim.host) (Some Samples.blob_garbage) = Throw SyntaxError /\
  extract (host := Sim.host) (Some "LG0qQVVAFmVhMGMx") = Throw TypeError.
Proof.
  destruct (decode_failure_aborts_unflushed (Samples.target 1 3 0 false None))
    as (Hmain & _ & Hsyntax & Hmissing).
  split; [| split].
  - apply Hmain. reflexivity.
  - apply Hsyntax. vm_compute. reflexivity.
  - apply (Hmissing _ [("user", JString "x")]); vm_compute; reflexivity.
Defined.

(** C6, as the claim states it, fails: a target that is at step 3 from
    the start and never gets past it ends the run with [stepsCompleted]
    at 0, not at 2. *)
Lemma stalled_from_the_start :
  stalls_at 3 (codeFor Samples.codes3) shows_until_3 /\
  shows_until_3 3 0 (enter (Samples.target 3 3 0 false (Some Samples.blob3))) /\
  exists o stats,
    main (Samples.target 3 3 0 false (Some Samples.blob3)) = Some o /\
    run_stats_json (files o) = Some stats /\
    success stats = false /\
    stepsCompleted stats = 0 /\
    stepsCompleted stats <> 3 - 1.
Proof.
  split; [apply sim_stalls_at_3 |]. split.
  - unfold shows_until_3. simpl. repeat split; lia.
  - eexists _, _. split; [vm_compute; reflexivity |].
    repeat split. simpl. discriminate.
Qed.

(** The amended statement at work on two targets that stop at step 3:
    one that moves during the wait and ignores the first submission,
    and one that moves at the click on submit. *)
Lemma stalled_run_is_summarised_witness :
  (exists o stats finish,
     main (Samples.target 1 3 1 false (Some Samples.blob3)) = Some o /\
     final_screenshot (files o) = true /\
     run_stats_json (files o) = Some stats /\
     success stats = false /\
     stepsCompleted stats = 3 - 1 /\
     endTime stats = Some finish /\
     (startTime stats <= finish)%Z /\
     (0 <= totalDurationSeconds stats)%Q) /\
  (exists o stats finish,
     main (Clicker.target 1 3 false) = Some o /\
     final_screenshot (files o) = true /\
     run_stats_json (files o) = Some stats /\
     success stats = false /\
     stepsCompleted stats = 3 - 1 /\
     endTime stats = Some finish /\
     (startTime stats <= finish)%Z /\
     (0 <= totalDurationSeconds stats)%Q).
Proof.
  split.
  - apply (stalled_run_is_summarised 3 1 3 shows_until_3
             (Samples.target 1 3 1 false (Some Samples.blob3)) Samples.codes3).
    + apply sim_stalls_at_3.
    + exact sim_clock_monotone.
    + lia.
    + lia.
    + left. lia.
    + intros n Hn.
      assert (n = 1 \/ n = 2 \/ n = 3) as [-> | [-> | ->]] by lia; reflexivity.
    + intro t. reflexivity.
    + vm_compute. reflexivity.
    + unfold shows_until_3. simpl. repeat split; lia.
    + lia.
  - apply (stalled_run_is_summarised 3 1 2 (Clicker.shows 3 false)
             (Clicker.target 1 3 false) (JArray (Samples.table 31))).
    + apply clicker_stalls; [lia |]. intros n Hn. apply codeFor_codes31. lia.
    + exact clicker_clock_monotone.
    + lia.
    + lia.
    + left. lia.
    + intros n Hn. rewrite codeFor_codes31 by lia. reflexivity.
    + intro t. reflexivity.
    + vm_compute. reflexivity.
    + unfold Clicker.shows. simpl. repeat split; lia.
    + lia.
Defined.

Lemma finished_completes_the_run_witness :
  exists e,
    for_loop 121 0 Samples.codes3 Samples.fresh Samples.at_finish = Some e /\
    exit_by e = Break /\ attempt_at_exit e = 0%nat /\
    page e = Samples.at_finish /\
    stepDetails (runStats (vars e)) = stepDetails (runStats Samples.fresh) /\
    stepsCompleted (finalize 1000 (vars e) (page e))
      = totalSteps (finalize 1000 (vars e) (page e)) /\
    success (finalize 1000 (vars e) (page e)) = true.
Proof.
  apply (finished_completes_the_run 120 0 Samples.codes3 Samples.fresh
           Samples.at_finish 1000).
  - lia.
  - reflexivity.
  - vm_compute. reflexivity.
Defined.

(** The location sequence step5, step5, step6: the first submission of
    step 5 is not seen to advance, the second one is, and the target
    stays at step 6.  One record is logged, for step 5. *)
Example step5_step5_step6 :
  exists e,
    for_loop 121 0 (JArray (Samples.table 30)) Samples.fresh
      (Samples.target 5 6 1 false None) = Some e /\
    logged_steps (vars e) = [5] /\
    lastStep (vars e) = 5.
Proof.
  eexists. split; [vm_compute; reflexivity |]. split; reflexivity.
Qed.

Lemma completed_step_is_not_reprocessed_witness :
  loop_body (JArray (Samples.table 30)) Samples.after_step_5
    (Samples.target 5 6 0 false None)
    = (Next, Samples.after_step_5,
       page_waitForTimeout 50 (Samples.target 5 6 0 false None)) /\
  exists e,
    for_loop 121 0 (JArray (Samples.table 30))
      {| lastStep := 0; runStats := initial_runStats 1000 |}
      (Samples.target 5 6 1 false None) = Some e /\
    NoDup (logged_steps (vars e)).
Proof.
  split.
  - apply (proj1 (completed_step_is_not_reprocessed (JArray (Samples.table 30))
                    Samples.after_step_5 (Samples.target 5 6 0 false None) 5
                    O 0%Z (Samples.target 5 6 0 false None)
                    {| exit_by := Next; attempt_at_exit := O;
                       vars := Samples.fresh;
                       page := Samples.target 5 6 0 false None |})).
    + split; vm_compute; reflexivity.
    + vm_compute. discriminate.
  - eexists. split.
    + vm_compute. reflexivity.
    + eapply (proj2 (completed_step_is_not_reprocessed (JArray (Samples.table 30))
                       Samples.fresh (Samples.target 5 6 1 false None) 5
                       121 1000 (Samples.target 5 6 1 false None) _)).
      vm_compute. reflexivity.
Defined.


(* ================================================================== *)
(** ** Further properties of the session codes *)

Lemma decrypt_from_length (s : string) :
  forall i, String.length (decrypt_from i s) = String.length s.
Proof.
  induction s as [| c rest IH]; intro i; simpl; [reflexivity |].
  now rewrite IH.
Qed.

Lemma decrypt_from_get (s : string) :
  forall i j,
    String.get j (decrypt_from i s)
    = option_map
        (fun c =>
           fromCharCode
             (N.lxor (N_of_ascii c)
                (charCodeAt XOR_KEY (Nat.modulo (i + j) (String.length XOR_KEY)))))
        (String.get j s).
Proof.
  induction s as [| c rest IH]; intros i j.
  - destruct j; reflexivity.
  - destruct j as [| j].
    + cbn [decrypt_from String.get option_map]. now rewrite Nat.add_0_r.
    + cbn [decrypt_from String.get]. rewrite IH.
      now replace (S i + j)%nat with (i + S j)%nat by lia.
Qed.

Lemma string_of_list_byte_length (l : list byte) :
  String.length (string_of_list_byte l) = List.length l.
Proof.
  unfold string_of_list_byte.
  induction l as [| b l IH]; simpl; [reflexivity |]. now rewrite IH.
Qed.

Section MoreCodeRepository.

Context {T : Type} {host : Host T}.

(** X1: round trip.  A session item whose base64 content is a text
    XORed with the key decrypts to that text, whatever the text. *)
Theorem decrypt_round_trip (blob plaintext : string) :
  string_of_list_byte (Buffer_from_base64 blob) = decrypt_from 0 plaintext ->
  decrypt (Some blob) = Ok plaintext.
Proof.
  intro Hblob. unfold decrypt. now rewrite Hblob, decrypt_from_twice.
Qed.

(** X2: [decrypt] works unit by unit.  Its result has one code unit for
    every byte of the decoded item, and the unit at index [j] is the
    byte at [j] XORed with the key unit at [j mod 17]; an absent item
    makes it throw. *)
Theorem decrypt_unit_by_unit (blob : string) (j : nat) :
  decrypt None = Throw TypeError /\
  exists out,
    decrypt (Some blob) = Ok out /\
    String.length out = List.length (Buffer_from_base64 blob) /\
    String.get j out
    = option_map
        (fun c =>
           fromCharCode
             (N.lxor (N_of_ascii c) (charCodeAt XOR_KEY (Nat.modulo j 17))))
        (String.get j (string_of_list_byte (Buffer_from_base64 blob))).
Proof.
  split; [reflexivity |].
  eexists. split; [reflexivity |]. split.
  - now rewrite decrypt_from_length, string_of_list_byte_length.
  - apply (decrypt_from_get _ 0 j).
Qed.

(** X3: extraction succeeds exactly when the session item is present,
    its decrypted text parses to an object, the [codes] member of that
    object is there and is not [null], and the [length] of the codes
    converts to a string, which only a [length] member that is an
    object with a [toString] member, or an array that holds one, does
    not; the codes are then that member, of whatever type it is. *)
Theorem extract_succeeds_iff (item : option string) (codes : JSValue) :
  extract item = Ok codes <->
  exists blob members,
    item = Some blob /\
    JSON_parse (decrypt_from 0 (string_of_list_byte (Buffer_from_base64 blob)))
      = Some (JObject members) /\
    get_member "codes" members = codes /\
    codes <> JUndefined /\ codes <> JNull /\
    (forall inner,
       codes = JObject inner ->
       ToString_throws (get_member "length" inner) = false).
Proof.
  split.
  - unfold extract, decrypt, parse.
    destruct item as [blob |]; [| discriminate]. simpl.
    destruct (JSON_parse _) as [doc |] eqn:Hparse; [| discriminate]. simpl.
    destruct doc; simpl; try discriminate.
    destruct (get_member "codes" members)
      as [| | b | x | s | elems | inner] eqn:Hcodes;
      simpl; try discriminate.
    1-4: intro H; injection H as <-; exists blob, members;
      (split; [reflexivity |]); (split; [assumption |]);
      (split; [assumption |]); (split; [discriminate |]);
      (split; [discriminate |]); intros inner' E; discriminate E.
    destruct (ToString_throws (get_member "length" inner)) eqn:Hlen;
      simpl; try discriminate.
    intro H. injection H as <-. exists blob, members.
    split; [reflexivity |]. split; [assumption |]. split; [assumption |].
    split; [discriminate |]. split; [discriminate |].
    intros inner' E. injection E as <-. exact Hlen.
  - intros (blob & members & -> & Hparse & Hcodes & Hundef & Hnull & Hlen).
    unfold extract, decrypt, parse. simpl. rewrite Hparse. simpl.
    rewrite Hcodes. destruct codes; simpl; try congruence.
    now rewrite (Hlen _ eq_refl).
Qed.

(** X4: with at least thirty entries, all of them truthy, the lookup
    returns an entry of the table for every index. *)
Theorem codeFor_returns_an_entry (table : list JSValue) (i : N) :
  (30 <= List.length table)%nat ->
  Forall (fun v => truthy v = true) table ->
  In (codeFor (JArray table) i) table /\ truthy (codeFor (JArray table) i) = true.
Proof.
  intros Hlen Htruthy. rewrite Forall_forall in Htruthy.
  assert (H29 : In (nth 29 table JUndefined) table) by (apply nth_In; lia).
  unfold codeFor. simpl.
  destruct (Nat.lt_ge_cases (N.to_nat i) (List.length table)) as [Hin | Hout].
  - assert (Hi : In (nth (N.to_nat i) table JUndefined) table) by now apply nth_In.
    rewrite js_or_truthy by now apply Htruthy. split; [exact Hi | now apply Htruthy].
  - rewrite (nth_overflow table JUndefined Hout).
    rewrite js_or_falsy by reflexivity.
    change (Pos.to_nat 29) with 29%nat.
    split; [exact H29 | now apply Htruthy].
Qed.

End MoreCodeRepository.

Lemma decrypt_round_trip_witness :
  decrypt (host := Sim.host) (Some Samples.blob3) = Ok Samples.document3.
Proof.
  apply (decrypt_round_trip (host := Sim.host) Samples.blob3 Samples.document3).
  vm_compute. reflexivity.
Defined.

Lemma extract_succeeds_iff_witness :
  extract (host := Sim.host) (Some Samples.blob3) = Ok Samples.codes3.
Proof.
  apply (proj2 (extract_succeeds_iff (host := Sim.host)
                  (Some Samples.blob3) Samples.codes3)).
  exists Samples.blob3, [("codes", Samples.codes3)].
  split; [reflexivity |]. split; [vm_compute; reflexivity |].
  split; [reflexivity |]. split; [discriminate |]. split; [discriminate |].
  intros inner E. discriminate E.
Defined.

(** A session whose codes are an object with a [length] that does not
    convert to a string: line 66 throws, and nothing is written. *)
Example unprintable_length_is_rejected :
  Sim.parse_document
    (decrypt_from 0
       (string_of_list_byte (Sim.b64_decode 0 0 Samples.blob_unprintable)))
    = Some (JObject
              [("codes", JObject [("length", JObject [("toString", JNull)])])]) /\
  extract (host := Sim.host) (Some Samples.blob_unprintable) = Throw TypeError /\
  exists o,
    main (Samples.target 1 3 0 false (Some Samples.blob_unprintable)) = Some o /\
    settled o = Rejected TypeError /\
    final_screenshot (files o) = false /\
    run_stats_json (files o) = None.
Proof.
  split; [vm_compute; reflexivity |]. split; [vm_compute; reflexivity |].
  eexists. split; [vm_compute; reflexivity |]. repeat split.
Qed.

Lemma codeFor_returns_an_entry_witness :
  In (codeFor (JArray (Samples.table 31)) 35) (Samples.table 31) /\
  truthy (codeFor (JArray (Samples.table 31)) 35) = true.
Proof.
  apply (codeFor_returns_an_entry (Samples.table 31) 35).
  - vm_compute. lia.
  - vm_compute. repeat constructor.
Defined.

(* ================================================================== *)
(** ** Further properties of the loop *)

Section MoreEngine.

Context {T : Type} {host : Host T}.

Implicit Types (v : Vars) (t : T) (codes : JSValue).

(** X5: the loop is left by [break] only in a world whose location
    carries the finish marker, and then with [lastStep] at 30. *)
Theorem break_only_at_finish (fuel attempt : nat) (codes : JSValue)
    (v : Vars) (t : T) (e : LoopEnd) :
  for_loop fuel attempt codes v t = Some e ->
  exit_by e = Break ->
  includes "/finish" (page_url (page e)) = true /\ lastStep (vars e) = 30.
Proof.
  revert attempt v t.
  induction fuel as [| fuel IH]; intros attempt v t Hrun Hbreak; [discriminate |].
  rewrite for_loop_S in Hrun.
  destruct (attempt <? 120)%nat.
  - destruct (loop_body codes v t) as [[f v'] t'] eqn:Ebody.
    destruct f.
    + injection Hrun as <-. simpl. split.
      * apply (loop_body_exits _ _ _ _ _ _ Ebody).
      * eapply loop_body_break. exact Ebody.
    + eapply IH; eassumption.
    + injection Hrun as <-. discriminate Hbreak.
  - injection Hrun as <-. discriminate Hbreak.
Qed.

(** X6: the log is append-only, and it grows by at most one record per
    iteration: the log at the end of the loop is the log at its start
    followed by at most [120 - attempt] records. *)
Theorem log_is_append_only (fuel attempt : nat) (codes : JSValue)
    (v : Vars) (t : T) (e : LoopEnd) :
  for_loop fuel attempt codes v t = Some e ->
  exists suffix,
    stepDetails (runStats (vars e)) = (stepDetails (runStats v) ++ suffix)%list /\
    (List.length suffix <= 120 - attempt)%nat.
Proof.
  revert attempt v t.
  induction fuel as [| fuel IH]; intros attempt v t Hrun; [discriminate |].
  rewrite for_loop_S in Hrun.
  destruct (Nat.ltb_spec attempt 120) as [Hlt | Hge].
  - destruct (loop_body codes v t) as [[f v'] t'] eqn:Ebody.
    assert (Hstep : exists s1, stepDetails (runStats v')
                               = (stepDetails (runStats v) ++ s1)%list /\
                               (List.length s1 <= 1)%nat).
    { destruct (loop_body_shape _ _ _ _ _ _ Ebody)
        as [[_ ->] | [[_ ->] | (r & _ & -> & _)]].
      - exists []. split; [now rewrite app_nil_r | simpl; lia].
      - exists []. split; [now rewrite app_nil_r | simpl; lia].
      - exists [r]. split; [reflexivity | simpl; lia]. }
    destruct Hstep as (s1 & Hs1 & Hlen1).
    destruct f.
    + injection Hrun as <-. exists s1. split; [exact Hs1 | lia].
    + apply IH in Hrun. destruct Hrun as (s2 & Hs2 & Hlen2).
      exists (s1 ++ s2)%list. rewrite Hs2, Hs1, <- app_assoc.
      split; [reflexivity |]. rewrite length_app. lia.
    + injection Hrun as <-. exists s1. split; [exact Hs1 | lia].
  - injection Hrun as <-. exists []. simpl. rewrite app_nil_r.
    split; [reflexivity | lia].
Qed.

(** X7: [lastStep] follows the log.  When it is the step of the last
    record at the start (0 for an empty log), then at the end of a loop
    left by its guard, or by the exception of line 112, it is again the
    step of the last record; after a [break] it is 30. *)
Theorem lastStep_follows_the_log (fuel attempt : nat) (codes : JSValue)
    (v : Vars) (t : T) (e : LoopEnd) :
  lastStep v = last (logged_steps v) 0 ->
  for_loop fuel attempt codes v t = Some e ->
  match exit_by e with
  | Break => lastStep (vars e) = 30
  | Next | Throws _ => lastStep (vars e) = last (logged_steps (vars e)) 0
  end.
Proof.
  intros Hv Hrun. eapply for_loop_lastStep; eassumption.
Qed.

(** X8: every record of the log is a submission that carries the code
    the lookup gives for its step, or the bypass record of step 30 with
    its sentinel. *)
Theorem records_carry_the_looked_up_code (fuel attempt : nat)
    (codes : JSValue) (v : Vars) (t : T) (e : LoopEnd) :
  Forall (recorded_by codes) (stepDetails (runStats v)) ->
  for_loop fuel attempt codes v t = Some e ->
  Forall (recorded_by codes) (stepDetails (runStats (vars e))).
Proof.
  revert attempt v t.
  induction fuel as [| fuel IH]; intros attempt v t Hv Hrun; [discriminate |].
  rewrite for_loop_S in Hrun.
  destruct (attempt <? 120)%nat.
  - destruct (loop_body codes v t) as [[f v'] t'] eqn:Ebody.
    assert (Hv' : Forall (recorded_by codes) (stepDetails (runStats v'))).
    { destruct (loop_body_shape _ _ _ _ _ _ Ebody)
        as [[_ ->] | [[_ ->] | (r & _ & -> & Hr & _)]]; try exact Hv.
      simpl. apply Forall_app. split; [exact Hv |].
      constructor; [exact Hr | constructor]. }
    destruct f.
    + injection Hrun as <-. exact Hv'.
    + eapply IH; eassumption.
    + injection Hrun as <-. exact Hv'.
  - injection Hrun as <-. exact Hv.
Qed.

(** X9: with a clock that never runs backwards, no record has a
    negative duration. *)
Theorem durations_are_not_negative (fuel attempt : nat) (codes : JSValue)
    (v : Vars) (t : T) (e : LoopEnd) :
  clock_monotone ->
  Forall (fun r => (0 <= durationMs r)%Z) (stepDetails (runStats v)) ->
  for_loop fuel attempt codes v t = Some e ->
  Forall (fun r => (0 <= durationMs r)%Z) (stepDetails (runStats (vars e))).
Proof.
  intro Hclock. revert attempt v t.
  induction fuel as [| fuel IH]; intros attempt v t Hv Hrun; [discriminate |].
  rewrite for_loop_S in Hrun.
  destruct (attempt <? 120)%nat.
  - destruct (loop_body codes v t) as [[f v'] t'] eqn:Ebody.
    pose proof (loop_body_clock _ _ _ _ _ _ Hclock Ebody) as Hlater.
    assert (Hv' : Forall (fun r => (0 <= durationMs r)%Z)
                    (stepDetails (runStats v'))).
    { destruct (loop_body_shape _ _ _ _ _ _ Ebody)
        as [[_ ->] | [[_ ->] | (r & _ & -> & _ & _ & Hr)]]; try exact Hv.
      simpl. apply Forall_app. split; [exact Hv |].
      constructor; [lia | constructor]. }
    destruct f.
    + injection Hrun as <-. exact Hv'.
    + eapply IH; eassumption.
    + injection Hrun as <-. exact Hv'.
  - injection Hrun as <-. exact Hv.
Qed.

Lemma loop_body_header codes v t f v' t' :
  loop_body codes v t = (f, v', t') ->
  startTime (runStats v') = startTime (runStats v) /\
  totalSteps (runStats v') = totalSteps (runStats v) /\
  metrics (runStats v') = metrics (runStats v).
Proof.
  intro Ebody.
  destruct (loop_body_shape _ _ _ _ _ _ Ebody)
    as [[_ ->] | [[_ ->] | (r & _ & -> & _)]]; repeat split.
Qed.

Lemma for_loop_header codes fuel :
  forall attempt v t e,
    for_loop fuel attempt codes v t = Some e ->
    startTime (runStats (vars e)) = startTime (runStats v) /\
    totalSteps (runStats (vars e)) = totalSteps (runStats v) /\
    metrics (runStats (vars e)) = metrics (runStats v).
Proof.
  induction fuel as [| fuel IH]; intros attempt v t e Hrun; [discriminate |].
  rewrite for_loop_S in Hrun.
  destruct (attempt <? 120)%nat.
  - destruct (loop_body codes v t) as [[f v'] t'] eqn:Ebody.
    destruct (loop_body_header _ _ _ _ _ _ Ebody) as (H1 & H2 & H3).
    destruct f.
    + injection Hrun as <-. simpl. auto.
    + apply IH in Hrun. destruct Hrun as (H1' & H2' & H3').
      repeat split; congruence.
    + injection Hrun as <-. simpl. auto.
  - injection Hrun as <-. simpl. auto.
Qed.

(** X10: a summary is written only after the screenshot, and only by a
    run that extracted its codes, left the loop by its guard or by
    [break], and saw the screenshot resolve.  Such a run fulfils when
    the close of the browser, which comes after the write, resolves,
    and is rejected when it does not: the summary is there in both
    cases.  It is the one of lines 207-211 for the end of the loop: it
    carries the start time read when the run began, an end time, 30 as
    the total number of steps and the untouched metrics block, and its
    success flag is set exactly when [stepsCompleted] equals
    [totalSteps]. *)
Theorem summary_of_a_run (t0 : T) (o : Outcome) (stats : RunStats) :
  main t0 = Some o ->
  run_stats_json (files o) = Some stats ->
  final_screenshot (files o) = true /\
  (exists codes e,
     extract (sessionStorage_getItem (enter t0)) = Ok codes /\
     for_loop 121 0 codes
       {| lastStep := 0; runStats := initial_runStats (Date_now t0) |}
       (enter t0) = Some e /\
     (exit_by e = Next \/ exit_by e = Break) /\
     fst (page_screenshot (page e)) = true /\
     stats = finalize (Date_now t0) (vars e) (page e) /\
     settled o = (if fst (browser_close (snd (page_screenshot (page e))))
                  then Fulfilled else Rejected DriverError)) /\
  startTime stats = Date_now t0 /\
  (exists finish, endTime stats = Some finish) /\
  totalSteps stats = 30 /\
  metrics stats = metrics (initial_runStats (Date_now t0)) /\
  (success stats = true <-> stepsCompleted stats = totalSteps stats).
Proof.
  unfold main. destruct (extract _) as [codes | exn] eqn:Hcodes.
  - intros Hsolve Hstats.
    assert (Hloop : exists e,
              for_loop 121 0 codes
                {| lastStep := 0; runStats := initial_runStats (Date_now t0) |}
                (enter t0) = Some e /\
              (exit_by e = Next \/ exit_by e = Break) /\
              fst (page_screenshot (page e)) = true).
    { unfold solve in Hsolve.
      destruct (for_loop 121 0 codes _ (enter t0)) as [e |]; [| discriminate].
      exists e. split; [reflexivity |].
      destruct (exit_by e);
        try (injection Hsolve as <-; discriminate Hstats);
        (destruct (page_screenshot (page e)) as [[|] t1];
         [| injection Hsolve as <-; discriminate Hstats]);
        split; auto. }
    destruct Hloop as (e & Hrun & Hexit & Hshot).
    destruct (solve_after_loop (Date_now t0) _ _ _ _ Hrun Hexit Hshot)
      as (o' & Hsolve' & Hfiles & Hsettled).
    rewrite Hsolve in Hsolve'. injection Hsolve' as <-.
    rewrite Hfiles in Hstats. simpl in Hstats. injection Hstats as <-.
    destruct (for_loop_header _ _ _ _ _ _ Hrun) as (Hstart & Htotal & Hmetrics).
    simpl in Hstart, Htotal, Hmetrics.
    rewrite Hfiles. simpl. rewrite Hstart, Htotal, Hmetrics.
    split; [reflexivity |]. split.
    { exists codes, e. repeat split; assumption. }
    repeat split; eauto.
    + now intros ->%N.eqb_eq.
    + intros ->. reflexivity.
  - intros Ho Hstats. injection Ho as <-. discriminate Hstats.
Qed.

(** X11: while the location carries neither a step nor the finish
    marker, an iteration is a wait of 100 ms and nothing else: a page
    that stays that way uses up the budget in 120 such waits, with the
    variables untouched. *)
Theorem unmarked_location_only_waits (still : T -> Prop) (codes : JSValue)
    (v : Vars) (t : T) :
  (forall t', still t' -> unmarked t' /\ still (page_waitForTimeout 100 t')) ->
  still t ->
  for_loop 121 0 codes v t
  = Some {| exit_by := Next; attempt_at_exit := 120; vars := v;
            page := Nat.iter 120 (page_waitForTimeout 100) t |}.
Proof.
  intros Hstill.
  assert (Hgen : forall fuel attempt t1,
             still t1 -> (attempt <= 120)%nat -> (120 - attempt < fuel)%nat ->
             for_loop fuel attempt codes v t1
             = Some {| exit_by := Next; attempt_at_exit := 120; vars := v;
                       page := Nat.iter (120 - attempt)
                                 (page_waitForTimeout 100) t1 |}).
  { induction fuel as [| fuel IH]; intros attempt t1 Ht1 Hle Hfuel; [lia |].
    rewrite for_loop_S.
    destruct (Nat.ltb_spec attempt 120) as [Hlt | Hge].
    - destruct (Hstill _ Ht1) as [[Hfinish Hmatch] Hnext].
      unfold loop_body. rewrite Hfinish, Hmatch.
      rewrite IH by (assumption || lia).
      replace (120 - attempt)%nat with (S (120 - S attempt)) by lia.
      now rewrite Nat.iter_succ_r.
    - replace attempt with 120%nat by lia. reflexivity. }
  intro Ht. apply (Hgen 121%nat 0%nat t Ht); lia.
Qed.

Lemma completed_differs n r v : completed n r v <> v.
Proof.
  intro H. apply (f_equal (fun x => List.length (stepDetails (runStats x)))) in H.
  simpl in H. rewrite length_app in H. simpl in H. lia.
Qed.

(** X12: a submission is tried again exactly when it showed no
    progress: the ordinary path ends the iteration with the variables
    unchanged and goes on to the next poll if and only if the code
    converted to a string at line 112, the wait was rejected, and the
    location read afterwards does not satisfy the predicate the wait
    was given. *)
Theorem retried_exactly_without_progress (codes : JSValue) (n : N) (s0 : Z)
    (v : Vars) (t : T) :
  let waited :=
    page_waitForURL (advanced_past n) 3500
      (evaluate_submit
         (evaluate_enterCode (codeFor codes n)
            (page_waitForTimeout 50 (evaluate_dismiss n t)))) in
  submit_code codes n s0 v t = (Next, v, snd waited) <->
  ToString_throws (codeFor codes n) = false /\
  fst waited = false /\ advanced_past n (page_url (snd waited)) = false.
Proof.
  unfold submit_code, advanced_past. cbv zeta.
  destruct (ToString_throws (codeFor codes n)).
  { split; [discriminate | intros [H _]; discriminate H]. }
  destruct (page_waitForURL _ _ _) as [resolved t5]. simpl.
  destruct resolved.
  - split; [| intros (_ & H & _); discriminate H].
    intro H. injection H as H. now apply completed_differs in H.
  - destruct (includes "/finish" (page_url t5)); simpl.
    + split; [discriminate | intros (_ & _ & H); discriminate H].
    + destruct (match_step (page_url t5)) as [m1 |]; [| now split].
      destruct (n <? parseInt m1).
      * split; [| intros (_ & _ & H); discriminate H].
        intro H. injection H as H. now apply completed_differs in H.
      * now split.
Qed.

(** *** A target that plays along *)

Section Cooperative.

Variable codes : JSValue.
Variable shows : N -> nat -> T -> Prop.
Hypothesis coop : cooperates (codeFor codes) shows.

(** A submission below step 30: logged, with the target one step
    further, or to be repeated. *)
Lemma submit_code_cooperative n j s0 v t :
  shows n j t -> n < 30 ->
  ToString_throws (codeFor codes n) = false ->
  exists j', (j' < j)%nat /\
    ((exists t' d,
        submit_code codes n s0 v t
        = (Next,
           completed n {| step := n; code := codeFor codes n; durationMs := d;
                          method := "code_submission" |} v,
           t') /\
        shows (n + 1) j' t') \/
     (exists t', submit_code codes n s0 v t = (Next, v, t') /\ shows n j' t')).
Proof.
  intros Hn Hlt Hprint.
  destruct (coop_submission _ _ coop _ _ _ Hn Hlt) as (j' & Hj' & Hcases).
  exists j'. split; [exact Hj' |].
  unfold submit_code. rewrite Hprint.
  unfold submission in Hcases.
  destruct (page_waitForURL _ _ _) as [resolved t5]. simpl in Hcases.
  destruct Hcases as [Hmoved | [Hrej Hsame]].
  - left.
    destruct (at_step_match _ _ (proj1 (coop_location _ _ coop _ _ _ Hmoved)))
      as (Hnot & m1 & Hm1 & Hparse).
    destruct resolved.
    + eexists t5, _. split; [reflexivity | exact Hmoved].
    + rewrite Hnot, Hm1, Hparse.
      destruct (N.ltb_spec n (n + 1)) as [_ | Hge]; [| lia].
      eexists t5, _. split; [reflexivity | exact Hmoved].
  - right. subst resolved.
    destruct (at_step_match _ _ (proj1 (coop_location _ _ coop _ _ _ Hsame)))
      as (Hnot & m1 & Hm1 & Hparse).
    rewrite Hnot, Hm1, Hparse, N.ltb_irrefl.
    exists t5. split; [reflexivity | exact Hsame].
Qed.

Lemma loop_body_cooperative n j v t :
  shows n j t -> lastStep v < n -> n < 30 ->
  ToString_throws (codeFor codes n) = false ->
  exists j', (j' < j)%nat /\
    ((exists t' d,
        loop_body codes v t
        = (Next,
           completed n {| step := n; code := codeFor codes n; durationMs := d;
                          method := "code_submission" |} v,
           t') /\
        shows (n + 1) j' t') \/
     (exists t', loop_body codes v t = (Next, v, t') /\ shows n j' t')).
Proof.
  intros Hn Hlast Hlt Hprint.
  destruct (at_step_match _ _ (proj1 (coop_location _ _ coop _ _ _ Hn)))
    as (Hnot & m1 & Hm1 & Hparse).
  unfold loop_body. rewrite Hnot, Hm1, Hparse.
  destruct (N.leb_spec n (lastStep v)) as [Hle | _]; [lia |].
  destruct (N.eqb_spec n 30) as [-> | _]; [lia |].
  now apply submit_code_cooperative.
Qed.

Lemma loop_body_bypass j v t :
  shows 30 j t -> lastStep v < 30 ->
  exists d,
    loop_body codes v t
    = (Break,
       completed 30 {| step := 30; code := JString "N/A (router bypass)";
                       durationMs := d; method := "history.pushState" |} v,
       page_waitForTimeout 500 (evaluate_pushState t)).
Proof.
  intros H30 Hlast.
  destruct (at_step_match _ _ (proj1 (coop_location _ _ coop _ _ _ H30)))
    as (Hnot & m1 & Hm1 & Hparse).
  unfold loop_body. rewrite Hnot, Hm1, Hparse.
  destruct (N.leb_spec 30 (lastStep v)) as [Hle | _]; [lia |].
  rewrite N.eqb_refl, (coop_pushState _ _ coop _ _ H30).
  eexists. reflexivity.
Qed.

(** From step [n], with budget for the submissions it takes to reach
    step 30 and for the bypass, the loop logs one submission per step
    and then the bypass, whatever was repeated in between, and is left
    by [break]. *)
Lemma for_loop_cooperative fuel :
  forall attempt v t n j,
    shows n j t -> lastStep v < n ->
    (forall m, n <= m < 30 -> ToString_throws (codeFor codes m) = false) ->
    (attempt + j < 120)%nat -> (j < fuel)%nat ->
    exists e,
      for_loop fuel attempt codes v t = Some e /\
      exit_by e = Break /\
      (polls e <= attempt + j + 1)%nat /\
      lastStep (vars e) = 30 /\
      map step (stepDetails (runStats (vars e)))
        = (map step (stepDetails (runStats v))
           ++ steps_from n (S (N.to_nat (30 - n))))%list /\
      map method (stepDetails (runStats (vars e)))
        = (map method (stepDetails (runStats v))
           ++ repeat "code_submission" (N.to_nat (30 - n))
           ++ ["history.pushState"])%list /\
      map code (stepDetails (runStats (vars e)))
        = (map code (stepDetails (runStats v))
           ++ map (codeFor codes) (steps_from n (N.to_nat (30 - n)))
           ++ [JString "N/A (router bypass)"])%list.
Proof.
  induction fuel as [| fuel IH];
    intros attempt v t n j Hn Hlast Hprint Hbudget Hfuel; [lia |].
  pose proof (proj2 (coop_location _ _ coop _ _ _ Hn)) as Hle.
  rewrite for_loop_S.
  destruct (Nat.ltb_spec attempt 120) as [_ | Hge]; [| lia].
  destruct (N.ltb_spec n 30) as [Hbelow | Hat].
  - destruct (loop_body_cooperative n j v t Hn Hlast Hbelow)
      as (j' & Hj' & [(t' & d & -> & Hn') | (t' & -> & Hn')]);
      [apply Hprint; lia | |].
    + cbv beta iota.
      match goal with
      | |- context [for_loop fuel (S attempt) codes ?v1 t'] =>
          destruct (IH (S attempt) v1 t' (n + 1) j' Hn') as (e & Hrun & He);
            [simpl; lia | intros m Hm; apply Hprint; lia | lia | lia |]
      end.
      exists e. split; [exact Hrun |].
      destruct He as (Hexit & Hpolls & Hlast' & Hsteps & Hmethods & Hcodes).
      split; [exact Hexit |]. split; [lia |]. split; [exact Hlast' |].
      rewrite Hsteps, Hmethods, Hcodes.
      replace (N.to_nat (30 - n)) with (S (N.to_nat (30 - (n + 1)))) by lia.
      cbn [completed runStats push stepDetails steps_from repeat map app].
      rewrite !map_app, <- !app_assoc. cbn [map app step method code].
      repeat split.
    + cbv beta iota.
      destruct (IH (S attempt) v t' n j' Hn') as (e & Hrun & He);
        [exact Hlast | exact Hprint | lia | lia |].
      exists e. split; [exact Hrun |].
      destruct He as (Hexit & Hpolls & Hrest).
      split; [exact Hexit |]. split; [lia | exact Hrest].
  - assert (n = 30) as -> by lia.
    destruct (loop_body_bypass j v t Hn Hlast) as (d & ->).
    eexists. split; [reflexivity |]. unfold polls. simpl.
    rewrite !map_app. simpl. repeat split. lia.
Qed.

End Cooperative.

(** X13: let the target play along: below step 30 a submission of the
    looked-up code brings it one step further, at the click or during
    the wait, or is ignored and repeated, and at step 30 the history
    mutation takes it to the finish page.  Let it be at step [first]
    when the loop starts and need fewer than 120 submissions to reach
    step 30; let the looked-up codes of the steps from [first] to 29
    convert to strings and the screenshot resolve.  Then the run
    succeeds: the screenshot and the summary are written, the summary
    reports 30 completed steps, and its log holds one submission for
    every step from [first] to 29, each with the code the lookup gives
    for the step, followed by the bypass record of step 30. *)
Theorem cooperative_target_is_solved (shows : N -> nat -> T -> Prop)
    (first : N) (j : nat) (t0 : T) (codes : JSValue) :
  cooperates (codeFor codes) shows ->
  1 <= first <= 30 ->
  (forall n, first <= n < 30 -> ToString_throws (codeFor codes n) = false) ->
  (forall t, fst (page_screenshot t) = true) ->
  extract (sessionStorage_getItem (enter t0)) = Ok codes ->
  shows first j (enter t0) ->
  (j < 120)%nat ->
  exists o stats,
    main t0 = Some o /\
    final_screenshot (files o) = true /\
    run_stats_json (files o) = Some stats /\
    success stats = true /\
    stepsCompleted stats = 30 /\
    map step (stepDetails stats) = steps_from first (N.to_nat (31 - first)) /\
    map method (stepDetails stats)
      = (repeat "code_submission" (N.to_nat (30 - first))
         ++ ["history.pushState"])%list /\
    map code (stepDetails stats)
      = (map (codeFor codes) (steps_from first (N.to_nat (30 - first)))
         ++ [JString "N/A (router bypass)"])%list.
Proof.
  intros Hcoop Hfirst Hprint Hshot Hcodes Hshows Hj.
  destruct (for_loop_cooperative codes shows Hcoop 121 0
              {| lastStep := 0; runStats := initial_runStats (Date_now t0) |}
              (enter t0) first j Hshows)
    as (e & Hrun & Hexit & _ & Hlast & Hsteps & Hmethods & Hcode);
    [simpl; lia | exact Hprint | lia | lia |].
  destruct (solve_after_loop (Date_now t0) _ _ _ _ Hrun (or_intror Hexit)
              (Hshot (page e))) as (o & Hsolve & Hfiles & _).
  exists o, (finalize (Date_now t0) (vars e) (page e)).
  unfold main. rewrite Hcodes, Hsolve, Hfiles.
  cbn [runStats initial_runStats stepDetails map app] in Hsteps, Hmethods, Hcode.
  replace (N.to_nat (31 - first)) with (S (N.to_nat (30 - first))) by lia.
  unfold finalize.
  cbn [final_screenshot run_stats_json success stepsCompleted stepDetails].
  rewrite Hlast, Hsteps, Hmethods, Hcode. repeat split.
Qed.

End MoreEngine.

(* ================================================================== *)
(** ** Properties of the launchers *)

Lemma report_success (errexit screenshot : bool) :
  Launcher.report errexit 0 screenshot
  = (0%Z,
     ([Launcher.Rule; Launcher.Blank; Launcher.CompleteBanner]
      ++ (if screenshot then [Launcher.Blank; Launcher.ScreenshotPaths] else [])
      ++ [Launcher.Blank])%list).
Proof. destruct errexit, screenshot; reflexivity. Qed.

Lemma report_failure_errexit (status : Z) (screenshot : bool) :
  status <> 0%Z -> Launcher.report true status screenshot = (status, []).
Proof.
  intro H. unfold Launcher.report, Launcher.seq, Launcher.command. simpl.
  destruct (Z.eqb_spec status 0); [contradiction | reflexivity].
Qed.

Lemma report_failure_no_errexit (status : Z) (screenshot : bool) :
  status <> 0%Z ->
  Launcher.report false status screenshot
  = (status, [Launcher.Rule; Launcher.Blank; Launcher.ErrorBanner status]).
Proof.
  intro H. unfold Launcher.report, Launcher.seq, Launcher.command. simpl.
  destruct (Z.eqb_spec status 0); [contradiction | reflexivity].
Qed.

(** X14: solve.sh exits with the status of the solver.  It prints the
    completion banner exactly when that status is 0; when it is not,
    the script ends where the solver returns and prints nothing more,
    so that its error banner is never printed. *)
Theorem solve_sh_reports (status : Z) (screenshot : bool) :
  fst (Launcher.solve_sh status screenshot) = status /\
  (In Launcher.CompleteBanner (snd (Launcher.solve_sh status screenshot))
   <-> status = 0%Z) /\
  (status <> 0%Z -> snd (Launcher.solve_sh status screenshot) = []) /\
  (forall code,
     ~ In (Launcher.ErrorBanner code) (snd (Launcher.solve_sh status screenshot))).
Proof.
  unfold Launcher.solve_sh.
  destruct (Z.eq_dec status 0) as [-> | Hne].
  - rewrite report_success.
    destruct screenshot; simpl; intuition (discriminate || congruence).
  - rewrite (report_failure_errexit _ _ Hne). simpl.
    intuition (discriminate || congruence).
Qed.

(** X15: solve.ps1 exits with the status of the solver as well, and
    prints one of the two banners: the completion banner when the status
    is 0, the error banner with the status otherwise. *)
Theorem solve_ps1_reports (status : Z) (screenshot : bool) :
  fst (Launcher.solve_ps1 status screenshot) = status /\
  (In Launcher.CompleteBanner (snd (Launcher.solve_ps1 status screenshot))
   <-> status = 0%Z) /\
  (In (Launcher.ErrorBanner status) (snd (Launcher.solve_ps1 status screenshot))
   <-> status <> 0%Z).
Proof.
  unfold Launcher.solve_ps1.
  destruct (Z.eq_dec status 0) as [-> | Hne].
  - rewrite report_success.
    destruct screenshot; simpl; intuition (discriminate || congruence).
  - rewrite (report_failure_no_errexit _ _ Hne). simpl.
    intuition (discriminate || congruence).
Qed.

(** X16: what the launchers make of a run on a target that never gets
    past a step [k] (the hypotheses are those of C6).  The summary is
    written with [success] unset, and what the launchers print depends
    on the close of the browser alone.  When it resolves, the solver
    exits with status 0 and both launchers print the completion banner
    and the paths of the two files.  When it rejects, the solver exits
    with status 1: solve.sh prints nothing more, solve.ps1 prints its
    error banner, and both exit with status 1, the summary being
    written all the same. *)
Theorem launchers_after_a_stalled_run {T : Type} {host : Host T}
    (k first : N) (j : nat) (shows : N -> nat -> T -> Prop) (t0 : T)
    (codes : JSValue) :
  stalls_at k (codeFor codes) shows ->
  k <= 30 ->
  1 <= first ->
  first < k \/ first = 1 ->
  (forall n, first <= n <= k -> ToString_throws (codeFor codes n) = false) ->
  (forall t, fst (page_screenshot t) = true) ->
  extract (sessionStorage_getItem (enter t0)) = Ok codes ->
  shows first j (enter t0) ->
  (j <= 120)%nat ->
  exists e o stats,
    for_loop 121 0 codes
      {| lastStep := 0; runStats := initial_runStats (Date_now t0) |}
      (enter t0) = Some e /\
    main t0 = Some o /\
    run_stats_json (files o) = Some stats /\
    success stats = false /\
    (fst (browser_close (snd (page_screenshot (page e)))) = true ->
     exit_status o = 0%Z /\
     Launcher.solve_sh (exit_status o) (final_screenshot (files o))
       = (0%Z, [Launcher.Rule; Launcher.Blank; Launcher.CompleteBanner;
                Launcher.Blank; Launcher.ScreenshotPaths; Launcher.Blank]) /\
     Launcher.solve_ps1 (exit_status o) (final_screenshot (files o))
       = (0%Z, [Launcher.Rule; Launcher.Blank; Launcher.CompleteBanner;
                Launcher.Blank; Launcher.ScreenshotPaths; Launcher.Blank])) /\
    (fst (browser_close (snd (page_screenshot (page e)))) = false ->
     exit_status o = 1%Z /\
     Launcher.solve_sh (exit_status o) (final_screenshot (files o)) = (1%Z, []) /\
     Launcher.solve_ps1 (exit_status o) (final_screenshot (files o))
       = (1%Z, [Launcher.Rule; Launcher.Blank; Launcher.ErrorBanner 1])).
Proof.
  intros Hstalls Hk Hfirst Hopen Hprint Hshot Hcodes Hshows Hj.
  pose proof (proj2 (stalls_location _ _ _ Hstalls _ _ _ Hshows)) as Hle.
  destruct (for_loop_stalled k codes shows Hstalls 121 0
              {| lastStep := 0; runStats := initial_runStats (Date_now t0) |}
              (enter t0) first j Hshows)
    as (e & Hrun & Hexit & Hlast);
    [simpl; lia | exact Hk | exact Hprint | lia | lia | lia |].
  destruct (solve_after_loop (Date_now t0) _ _ _ _ Hrun (or_introl Hexit)
              (Hshot (page e))) as (o & Hsolve & Hfiles & Hsettled).
  simpl in Hlast.
  assert (Hsteps : lastStep (vars e) = k - 1).
  { rewrite Hlast. destruct (N.ltb_spec first k); lia. }
  exists e, o, (finalize (Date_now t0) (vars e) (page e)).
  split; [exact Hrun |].
  unfold main. rewrite Hcodes. split; [exact Hsolve |].
  rewrite Hfiles. split; [reflexivity |]. split.
  { simpl. rewrite Hsteps. apply N.eqb_neq. lia. }
  unfold exit_status. rewrite Hsettled.
  unfold Launcher.solve_sh, Launcher.solve_ps1.
  split; intros ->; cbn [final_screenshot].
  - rewrite !report_success. repeat split.
  - rewrite report_failure_errexit, report_failure_no_errexit by discriminate.
    repeat split.
Qed.

(** X17: the log is ordered.  When the logged step indices are strictly
    increasing and none exceeds [lastStep] at the start of the loop, as
    with the empty log, they are strictly increasing at its end. *)
Theorem log_is_strictly_increasing {T : Type} {host : Host T}
    (fuel attempt : nat) (codes : JSValue) (v : Vars) (t : T) (e : LoopEnd) :
  in_order v ->
  for_loop fuel attempt codes v t = Some e ->
  StronglySorted N.lt (logged_steps (vars e)).
Proof.
  intros Hv Hrun. eapply for_loop_in_order; eassumption.
Qed.

(* ================================================================== *)
(** ** The further statements at work on the simulated targets *)

Lemma sim_cooperates (typed : N -> JSValue) : cooperates typed shows_until_30.
Proof.
  constructor.
  - intros n j s (Hloc & Hn & _). split; [now apply sim_url_at_step | lia].
  - intros n j s (Hloc & Hn & Hlim & Hbyp & Hj) Hlt.
    destruct (sim_submission n (typed n) s Hloc Hn)
      as (Hlim' & Hbyp' & Hcases).
    rewrite Hlim, Hbyp in *.
    destruct (Sim.sim_lag s) as [| lag].
    + destruct Hcases as [Hlag' Hmoved].
      destruct (N.ltb_spec n 30) as [_ | Hge]; [| lia].
      exists (N.to_nat (30 - (n + 1))). split; [lia |]. left.
      unfold shows_until_30. rewrite Hlag'. repeat split; assumption || lia.
    + destruct Hcases as (Hrej & Hloc' & Hlag').
      exists (lag + N.to_nat (30 - n))%nat. split; [lia |]. right.
      split; [exact Hrej |].
      unfold shows_until_30. rewrite Hlag'. repeat split; assumption || lia.
  - intros j s (Hloc & Hn & Hlim & Hbyp & Hj).
    change (page_url (page_waitForTimeout 500 (evaluate_pushState s)))
      with (Sim.url (Sim.tick 500 (Sim.pushState s))).
    unfold Sim.pushState. rewrite Hbyp. reflexivity.
Qed.

(** The click-driven target with limit 30 and a working bypass plays
    along with an engine that types the expected codes. *)
Lemma clicker_cooperates (typed : N -> JSValue) :
  (forall n, 1 <= n < 30 -> typed n = JString (Clicker.expected n)) ->
  cooperates typed (Clicker.shows 30 true).
Proof.
  intro Htyped. constructor.
  - intros n j s (Hloc & Hn & _). split; [now apply clicker_url_at_step | lia].
  - intros n j s (Hloc & Hn & Hlim & Hbyp & Hj) Hlt.
    destruct (clicker_submission n (typed n) s Hloc Hn)
      as (Hlim' & Hbyp' & Hcases).
    rewrite Hlim, Hbyp in *.
    exists (N.to_nat (30 - (n + 1))). split; [lia |]. left.
    destruct Hcases as [(_ & _ & Hloc') | ([Hstuck | Hother] & _)].
    + unfold Clicker.shows. repeat split; assumption || lia.
    + apply N.ltb_ge in Hstuck. lia.
    + elim Hother. apply Htyped. lia.
  - intros j s (Hloc & Hn & Hlim & Hbyp & Hj).
    change (page_url (page_waitForTimeout 500 (evaluate_pushState s)))
      with (Clicker.url (Clicker.tick 500 (Clicker.pushState s))).
    unfold Clicker.pushState. rewrite Hbyp. reflexivity.
Qed.

(** A target that stalls does so whether the close resolves or not. *)
Lemma stalls_at_closing_fails {T : Type} (host : Host T) (k : N)
    (typed : N -> JSValue) (shows : N -> nat -> T -> Prop) :
  stalls_at (host := host) k typed shows ->
  stalls_at (host := closing_fails host) k typed shows.
Proof.
  intros [Hlocation Hsubmission Hlimit HpushState].
  constructor; [exact Hlocation | exact Hsubmission | exact Hlimit
               | exact HpushState].
Qed.

Lemma decrypt_unit_by_unit_witness :
  exists out,
    decrypt (host := Sim.host) (Some Samples.blob3) = Ok out /\
    String.length out = 38%nat /\
    String.get 18 out = Some ","%char.
Proof.
  destruct (decrypt_unit_by_unit (host := Sim.host) Samples.blob3 18)
    as (_ & out & Hout & Hlen & Hget).
  exists out. split; [exact Hout |]. split.
  - rewrite Hlen. vm_compute. reflexivity.
  - rewrite Hget. vm_compute. reflexivity.
Defined.

Lemma break_only_at_finish_witness :
  exists e,
    for_loop 121 0 (JArray (Samples.table 30)) Samples.fresh
      (Samples.target 30 30 0 true None) = Some e /\
    includes "/finish" (page_url (page e)) = true /\ lastStep (vars e) = 30.
Proof.
  eexists. split.
  - vm_compute. reflexivity.
  - eapply (break_only_at_finish 121 0 (JArray (Samples.table 30))
              Samples.fresh (Samples.target 30 30 0 true None) _).
    + vm_compute. reflexivity.
    + reflexivity.
Defined.

Lemma log_is_append_only_witness :
  exists e,
    for_loop 121 0 Samples.codes3 Samples.fresh
      (Samples.target 1 3 0 false None) = Some e /\
    exists suffix,
      stepDetails (runStats (vars e))
        = (stepDetails (runStats Samples.fresh) ++ suffix)%list /\
      (List.length suffix <= 120 - 0)%nat.
Proof.
  eexists. split.
  - vm_compute. reflexivity.
  - eapply (log_is_append_only 121 0 Samples.codes3 Samples.fresh
              (Samples.target 1 3 0 false None) _).
    vm_compute. reflexivity.
Defined.

Lemma lastStep_follows_the_log_witness :
  exists e,
    for_loop 121 0 Samples.codes3 Samples.fresh
      (Samples.target 1 3 0 false None) = Some e /\
    match exit_by e with
    | Break => lastStep (vars e) = 30
    | Next | Throws _ => lastStep (vars e) = last (logged_steps (vars e)) 0
    end.
Proof.
  eexists. split.
  - vm_compute. reflexivity.
  - eapply (lastStep_follows_the_log 121 0 Samples.codes3 Samples.fresh
              (Samples.target 1 3 0 false None) _).
    + reflexivity.
    + vm_compute. reflexivity.
Defined.

Lemma records_carry_the_looked_up_code_witness :
  exists e,
    for_loop 121 0 Samples.codes3 Samples.fresh
      (Samples.target 1 3 0 false None) = Some e /\
    Forall (recorded_by Samples.codes3) (stepDetails (runStats (vars e))).
Proof.
  eexists. split.
  - vm_compute. reflexivity.
  - eapply (records_carry_the_looked_up_code 121 0 Samples.codes3 Samples.fresh
              (Samples.target 1 3 0 false None) _).
    + constructor.
    + vm_compute. reflexivity.
Defined.

Lemma durations_are_not_negative_witness :
  exists e,
    for_loop 121 0 Samples.codes3 Samples.fresh
      (Samples.target 1 3 0 false None) = Some e /\
    Forall (fun r => (0 <= durationMs r)%Z) (stepDetails (runStats (vars e))).
Proof.
  eexists. split.
  - vm_compute. reflexivity.
  - eapply (durations_are_not_negative 121 0 Samples.codes3 Samples.fresh
              (Samples.target 1 3 0 false None) _).
    + exact sim_clock_monotone.
    + constructor.
    + vm_compute. reflexivity.
Defined.

(** X10 at work on a run whose close resolves, and on the same run with
    a close that rejects: the summary is written in both, by a run that
    fulfils in the first and is rejected in the second. *)
Lemma summary_of_a_run_witness :
  (exists o stats,
     main (Samples.target 1 3 0 false (Some Samples.blob3)) = Some o /\
     run_stats_json (files o) = Some stats /\
     settled o = Fulfilled /\
     final_screenshot (files o) = true /\
     startTime stats = 1000%Z /\
     totalSteps stats = 30 /\
     (success stats = true <-> stepsCompleted stats = totalSteps stats)) /\
  (exists o stats,
     main (host := closing_fails Sim.host)
       (Samples.target 1 3 0 false (Some Samples.blob3)) = Some o /\
     run_stats_json (files o) = Some stats /\
     settled o = Rejected DriverError /\
     exit_status o = 1%Z /\
     final_screenshot (files o) = true /\
     startTime stats = 1000%Z /\
     totalSteps stats = 30 /\
     (success stats = true <-> stepsCompleted stats = totalSteps stats)).
Proof.
  split.
  - eexists _, _. split; [vm_compute; reflexivity |]. split; [reflexivity |].
    split; [reflexivity |].
    match goal with
    | |- final_screenshot (files ?o) = _ /\ startTime ?stats = _ /\ _ =>
        destruct (summary_of_a_run (host := Sim.host)
                    (Samples.target 1 3 0 false (Some Samples.blob3)) o stats)
          as (Hshot & _ & Hstart & _ & Htotal & _ & Hsuccess)
    end.
    + vm_compute. reflexivity.
    + reflexivity.
    + split; [exact Hshot |]. split; [exact Hstart |].
      split; [exact Htotal | exact Hsuccess].
  - eexists _, _. split; [vm_compute; reflexivity |]. split; [reflexivity |].
    split; [reflexivity |]. split; [reflexivity |].
    match goal with
    | |- final_screenshot (files ?o) = _ /\ startTime ?stats = _ /\ _ =>
        destruct (summary_of_a_run (host := closing_fails Sim.host)
                    (Samples.target 1 3 0 false (Some Samples.blob3)) o stats)
          as (Hshot & _ & Hstart & _ & Htotal & _ & Hsuccess)
    end.
    + vm_compute. reflexivity.
    + reflexivity.
    + split; [exact Hshot |]. split; [exact Hstart |].
      split; [exact Htotal | exact Hsuccess].
Defined.

Lemma unmarked_location_only_waits_witness :
  for_loop (host := Idle.host) 121 0 Samples.codes3 Samples.fresh 1000%Z
  = Some {| exit_by := Next; attempt_at_exit := 120; vars := Samples.fresh;
            page := Nat.iter 120 (Idle.tick 100) 1000%Z |}.
Proof.
  apply (unmarked_location_only_waits (host := Idle.host) (fun _ => True)
           Samples.codes3 Samples.fresh 1000%Z).
  - intros clock _. split; [split; vm_compute; reflexivity | exact I].
  - exact I.
Defined.

Lemma retried_exactly_without_progress_witness :
  submit_code Samples.codes3 3 1000 Samples.fresh
    (Samples.target 3 3 0 false None)
  = (Next, Samples.fresh,
     snd (page_waitForURL (advanced_past 3) 3500
            (evaluate_submit
               (evaluate_enterCode (codeFor Samples.codes3 3)
                  (page_waitForTimeout 50
                     (evaluate_dismiss 3 (Samples.target 3 3 0 false None))))))).
Proof.
  apply (proj2 (retried_exactly_without_progress Samples.codes3 3 1000
                  Samples.fresh (Samples.target 3 3 0 false None))).
  split; [| split]; vm_compute; reflexivity.
Defined.

(** X13 at work on two targets that play along: one that moves during
    the wait and ignores the first two submissions, and one that moves
    at the click on submit when the expected code was typed. *)
Lemma cooperative_target_is_solved_witness :
  (exists o stats,
     main (Samples.target 1 30 2 true (Some Samples.blob31)) = Some o /\
     final_screenshot (files o) = true /\
     run_stats_json (files o) = Some stats /\
     success stats = true /\
     stepsCompleted stats = 30 /\
     map step (stepDetails stats) = steps_from 1 30 /\
     map method (stepDetails stats)
       = (repeat "code_submission" 29 ++ ["history.pushState"])%list /\
     map code (stepDetails stats)
       = (map (codeFor (JArray (Samples.table 31))) (steps_from 1 29)
          ++ [JString "N/A (router bypass)"])%list) /\
  (exists o stats,
     main (Clicker.target 1 30 true) = Some o /\
     final_screenshot (files o) = true /\
     run_stats_json (files o) = Some stats /\
     success stats = true /\
     stepsCompleted stats = 30 /\
     map step (stepDetails stats) = steps_from 1 30 /\
     map method (stepDetails stats)
       = (repeat "code_submission" 29 ++ ["history.pushState"])%list /\
     map code (stepDetails stats)
       = (map (codeFor (JArray (Samples.table 31))) (steps_from 1 29)
          ++ [JString "N/A (router bypass)"])%list).
Proof.
  split.
  - apply (cooperative_target_is_solved shows_until_30 1 31
             (Samples.target 1 30 2 true (Some Samples.blob31))
             (JArray (Samples.table 31))).
    + apply sim_cooperates.
    + lia.
    + intros n Hn. rewrite codeFor_codes31 by lia. reflexivity.
    + intro t. reflexivity.
    + vm_compute. reflexivity.
    + unfold shows_until_30. simpl. repeat split; lia.
    + lia.
  - apply (cooperative_target_is_solved (Clicker.shows 30 true) 1 29
             (Clicker.target 1 30 true) (JArray (Samples.table 31))).
    + apply clicker_cooperates. intros n Hn. apply codeFor_codes31. lia.
    + lia.
    + intros n Hn. rewrite codeFor_codes31 by lia. reflexivity.
    + intro t. reflexivity.
    + vm_compute. reflexivity.
    + unfold Clicker.shows. simpl. repeat split; lia.
    + lia.
Defined.

Lemma solve_sh_reports_witness :
  Launcher.solve_sh 1 true = (1%Z, []) /\
  In Launcher.CompleteBanner (snd (Launcher.solve_sh 0 true)).
Proof.
  destruct (solve_sh_reports 1 true) as (Hstatus & _ & Hsilent & _).
  destruct (solve_sh_reports 0 true) as (_ & Hbanner & _).
  split.
  - rewrite (surjective_pairing (Launcher.solve_sh 1 true)).
    rewrite Hstatus, Hsilent; [reflexivity | discriminate].
  - apply Hbanner. reflexivity.
Defined.

Lemma solve_ps1_reports_witness :
  In (Launcher.ErrorBanner 1) (snd (Launcher.solve_ps1 1 true)) /\
  In Launcher.CompleteBanner (snd (Launcher.solve_ps1 0 true)).
Proof.
  destruct (solve_ps1_reports 1 true) as (_ & _ & Herror).
  destruct (solve_ps1_reports 0 true) as (_ & Hbanner & _).
  split.
  - apply Herror. discriminate.
  - apply Hbanner. reflexivity.
Defined.

(** X16 at work on the target that stops at step 3, with a close that
    resolves and with one that rejects. *)
Lemma launchers_after_a_stalled_run_witness :
  (exists o stats,
     main (Samples.target 1 3 1 false (Some Samples.blob3)) = Some o /\
     run_stats_json (files o) = Some stats /\
     success stats = false /\
     exit_status o = 0%Z /\
     Launcher.solve_sh (exit_status o) (final_screenshot (files o))
       = (0%Z, [Launcher.Rule; Launcher.Blank; Launcher.CompleteBanner;
                Launcher.Blank; Launcher.ScreenshotPaths; Launcher.Blank]) /\
     Launcher.solve_ps1 (exit_status o) (final_screenshot (files o))
       = (0%Z, [Launcher.Rule; Launcher.Blank; Launcher.CompleteBanner;
                Launcher.Blank; Launcher.ScreenshotPaths; Launcher.Blank])) /\
  (exists o stats,
     main (host := closing_fails Sim.host)
       (Samples.target 1 3 1 false (Some Samples.blob3)) = Some o /\
     run_stats_json (files o) = Some stats /\
     success stats = false /\
     exit_status o = 1%Z /\
     Launcher.solve_sh (exit_status o) (final_screenshot (files o)) = (1%Z, []) /\
     Launcher.solve_ps1 (exit_status o) (final_screenshot (files o))
       = (1%Z, [Launcher.Rule; Launcher.Blank; Launcher.ErrorBanner 1])).
Proof.
  assert (Hprint : forall n, 1 <= n <= 3 ->
                     ToString_throws (codeFor Samples.codes3 n) = false).
  { intros n Hn.
    assert (n = 1 \/ n = 2 \/ n = 3) as [-> | [-> | ->]] by lia; reflexivity. }
  split.
  - destruct (launchers_after_a_stalled_run (host := Sim.host) 3 1 3
                shows_until_3
                (Samples.target 1 3 1 false (Some Samples.blob3)) Samples.codes3)
      as (e & o & stats & _ & Hmain & Hstats & Hsuccess & Hresolved & _).
    + apply sim_stalls_at_3.
    + lia.
    + lia.
    + left. lia.
    + exact Hprint.
    + intro t. reflexivity.
    + vm_compute. reflexivity.
    + unfold shows_until_3. simpl. repeat split; lia.
    + lia.
    + exists o, stats. split; [exact Hmain |]. split; [exact Hstats |].
      split; [exact Hsuccess |]. apply Hresolved. reflexivity.
  - destruct (launchers_after_a_stalled_run (host := closing_fails Sim.host)
                3 1 3 shows_until_3
                (Samples.target 1 3 1 false (Some Samples.blob3)) Samples.codes3)
      as (e & o & stats & _ & Hmain & Hstats & Hsuccess & _ & Hrejected).
    + apply stalls_at_closing_fails, sim_stalls_at_3.
    + lia.
    + lia.
    + left. lia.
    + exact Hprint.
    + intro t. reflexivity.
    + vm_compute. reflexivity.
    + unfold shows_until_3. simpl. repeat split; lia.
    + lia.
    + exists o, stats. split; [exact Hmain |]. split; [exact Hstats |].
      split; [exact Hsuccess |]. apply Hrejected. reflexivity.
Defined.

Lemma log_is_strictly_increasing_witness :
  exists e,
    for_loop 121 0 (JArray (Samples.table 31)) Samples.fresh
      (Samples.target 1 30 0 true None) = Some e /\
    StronglySorted N.lt (logged_steps (vars e)).
Proof.
  eexists. split.
  - vm_compute. reflexivity.
  - eapply (log_is_strictly_increasing 121 0 (JArray (Samples.table 31))
              Samples.fresh (Samples.target 1 30 0 true None) _).
    + split; constructor.
    + vm_compute. reflexivity.
Defined.
